(** * ct-daily: the analytical core of [server.js]

    A shallow embedding of the functions of [server.js] that turn scan
    snapshots into the daily brief (windowing, sentiment, mention
    aggregation, regime and fear classification, momentum, narrative),
    followed by the properties proved about them.

    Conventions of the embedding.
    - A JavaScript number that the program computes with division
      (percentages, means, rates, ratios) is a binary64 [float]: the
      primitive floats of Rocq are the IEEE 754 doubles of JavaScript, and
      every operation below is the double operation of the source.
    - A number that the program only counts with (ticker and keyword
      counts, time values in milliseconds, array lengths) is an integer
      ([Z] or [nat]).  Double addition, subtraction and comparison agree
      with the integer ones as long as the magnitudes stay below 2^53,
      the range in which doubles represent integers exactly.
    - A string is a [string] of bytes (UTF-8, as the source file is
      encoded).
    - A plain object used as a dictionary is an association list in
      insertion order; [Object_entries] lists it in the property order of
      ECMAScript.  Keys are assumed not to be names inherited from
      [Object.prototype]. *)

From Stdlib Require Import ZArith NArith List String Ascii Bool Lia.
From Stdlib Require Import Floats DecimalString.
From Stdlib Require Import Permutation Sorted.
Import ListNotations.

Local Open Scope string_scope.
Local Open Scope Z_scope.

(** ** The fragment of ECMAScript the program uses *)

Module JS.

(** *** Numbers *)

Definition number := float.

Definition NaN : number := PrimFloat.nan.

(** The nearest double of the rational [num / den], ties to even
    ([num] any integer, [den > 0]). *)
Definition Q2F (num : Z) (den : positive) : number :=
  match num with
  | Z0 => PrimFloat.zero
  | Zpos p => SF2Prim (SFdiv prec emax (S754_finite false p 0) (S754_finite false den 0))
  | Zneg p => SF2Prim (SFdiv prec emax (S754_finite true p 0) (S754_finite false den 0))
  end.

(** An integer as a number: exact below 2^53, rounded to nearest above. *)
Definition Z2F (z : Z) : number := SF2Prim (binary_normalize prec emax z 0 false).

(** [array.length] as a number. *)
Definition length_number {A} (l : list A) : number := Z2F (Z.of_nat (List.length l)).

(** ToBoolean on a number: [+0], [-0] and [NaN] are falsy. *)
Definition truthy (x : number) : bool :=
  negb (PrimFloat.is_nan x || PrimFloat.is_zero x).

(** [x || 0] where [x] is a number or [undefined]. *)
Definition or_zero (x : option number) : number :=
  match x with
  | Some v => if truthy v then v else PrimFloat.zero
  | None => PrimFloat.zero
  end.

(** [x || 0] and [x || 1] on integers. *)
Definition Zor (x : option Z) (d : Z) : Z :=
  match x with
  | Some v => if v =? 0 then d else v
  | None => d
  end.

Definition gtb (x y : number) : bool := PrimFloat.ltb y x.
Definition geb (x y : number) : bool := PrimFloat.leb y x.

(** *** Decimal digits *)

Definition digits (n : N) : string := NilZero.string_of_uint (N.to_uint n).

Definition is_digit (c : ascii) : bool :=
  let n := nat_of_ascii c in (48 <=? n)%nat && (n <=? 57)%nat.

Definition digit_value (c : ascii) : Z := Z.of_nat (nat_of_ascii c) - 48.

Fixpoint repeat_string (s : string) (n : nat) : string :=
  match n with
  | O => ""
  | S n' => s ++ repeat_string s n'
  end.

Fixpoint take (n : nat) (s : string) : string :=
  match n, s with
  | S n', String c s' => String c (take n' s')
  | _, _ => ""
  end.

Fixpoint drop (n : nat) (s : string) : string :=
  match n, s with
  | S n', String _ s' => drop n' s'
  | _, _ => s
  end.

(** The decimal value of a string of digits. *)
Fixpoint digits_value_from (acc : Z) (s : string) : Z :=
  match s with
  | "" => acc
  | String c s' => digits_value_from (10 * acc + digit_value c) s'
  end.

Definition digits_value (s : string) : Z := digits_value_from 0 s.

(** The longest prefix of decimal digits, and what follows it. *)
Fixpoint span_digits (s : string) : string * string :=
  match s with
  | String c s' =>
      if is_digit c then let (d, r) := span_digits s' in (String c d, r)
      else ("", s)
  | "" => ("", "")
  end.

(** *** Number::toString, radix 10 *)

(** [x = num / den] for the finite positive double [m * 2^e]. *)
Definition ratio_of (m : positive) (e : Z) : Z * Z :=
  if 0 <=? e then (Zpos m * 2 ^ e, 1) else (Zpos m, 2 ^ (- e)).

(** The least [j' >= j] with [num * 10^(j' - j) >= den]. *)
Fixpoint first_scale (fuel : nat) (num den : Z) (j : Z) : Z :=
  match fuel with
  | O => j
  | S fuel' => if den <=? num then j else first_scale fuel' (10 * num) den (j + 1)
  end.

(** The decimal exponent [n] of [x = num / den]: [10^(n-1) <= x < 10^n]. *)
Definition decimal_exponent (num den : Z) : Z :=
  if den <=? num then Z.of_nat (String.length (digits (Z.to_N (num / den))))
  else 1 - first_scale 400 num den 0.

(** The value [c * 10^(-t)] as a double. *)
Definition scaled_number (c t : Z) : number :=
  if 0 <=? t then Q2F c (Z.to_pos (10 ^ t)) else Q2F (c * 10 ^ (- t)) 1.

(** [x * 10^t] for [x = num / den], as a fraction. *)
Definition scaled (num den t : Z) : Z * Z :=
  if 0 <=? t then (num * 10 ^ t, den) else (num, den * 10 ^ (- t)).

(** The [k]-digit candidates for the digits [s] of [x = num / den] with
    decimal exponent [n]: the two [k]-digit decimals around [x]; the
    result is the one that reads back as [x], the closer one (the even
    one on a tie) when both do, with its decimal exponent. *)
Definition shortest_at (x : number) (num den n : Z) (k : Z) : option (Z * Z) :=
  let t := k - n in
  let (A, B) := scaled num den t in
  let lo := A / B in
  let r := A mod B in
  let hi := lo + 1 in
  let ok c := PrimFloat.eqb (scaled_number c t) x in
  let norm c := if c =? 10 ^ k then (10 ^ (k - 1), n + 1) else (c, n) in
  if r =? 0 then Some (lo, n)
  else
    match ok lo, ok hi with
    | true, true =>
        if 2 * r <? B then Some (lo, n)
        else if B <? 2 * r then Some (norm hi)
        else if Z.even lo then Some (lo, n) else Some (norm hi)
    | true, false => Some (lo, n)
    | false, true => Some (norm hi)
    | false, false => None
    end.

(** The least number of digits [k] that reads back as [x], tried from
    [k] on; 17 digits always suffice for a double, so that the search
    from 1 with fuel 17 ends in the second branch (the first one gives
    the digits of [x] cut at [k] of them). *)
Fixpoint shortest_from (fuel : nat) (x : number) (num den n k : Z) : Z * Z * Z :=
  match fuel with
  | O => let (A, B) := scaled num den (k - n) in (k, A / B, n)
  | S fuel' =>
      match shortest_at x num den n k with
      | Some (s, n') => (k, s, n')
      | None => shortest_from fuel' x num den n (k + 1)
      end
  end.

(** The text of the positive finite number whose shortest digits are the
    [k] digits of [s], with decimal exponent [n]. *)
Definition format_shortest (k s n : Z) : string :=
  let ds := digits (Z.to_N s) in
  if (k <=? n) && (n <=? 21) then ds ++ repeat_string "0" (Z.to_nat (n - k))
  else if (0 <? n) && (n <=? 21) then
    take (Z.to_nat n) ds ++ "." ++ drop (Z.to_nat n) ds
  else if (-6 <? n) && (n <=? 0) then
    "0." ++ repeat_string "0" (Z.to_nat (- n)) ++ ds
  else
    let e := n - 1 in
    let sign := if e <? 0 then "-" else "+" in
    let ed := digits (Z.to_N (Z.abs e)) in
    if k =? 1 then ds ++ "e" ++ sign ++ ed
    else take 1 ds ++ "." ++ drop 1 ds ++ "e" ++ sign ++ ed.

Definition Number_toString (x : number) : string :=
  match Prim2SF x with
  | S754_nan => "NaN"
  | S754_zero _ => "0"
  | S754_infinity s => if s then "-Infinity" else "Infinity"
  | S754_finite s m e =>
      let (num, den) := ratio_of m e in
      let n := decimal_exponent num den in
      let '(k, d, n') := shortest_from 17 (PrimFloat.abs x) num den n 1 in
      (if s then "-" else "") ++ format_shortest k d n'
  end.

(** *** Number.prototype.toFixed *)

(** The integer [n] for which [n / 10^f] is closest to [m * 2^e], the
    larger one when two are as close. *)
Definition fixed_round (m : positive) (e : Z) (f : nat) : Z :=
  let a := Zpos m * 10 ^ Z.of_nat f in
  if 0 <=? e then a * 2 ^ e
  else (2 * a + 2 ^ (- e)) / 2 ^ (- e + 1).

(** The digits of [n] with a decimal point before the last [f] of them. *)
Definition fixed_text (n : Z) (f : nat) : string :=
  let m := digits (Z.to_N n) in
  match f with
  | O => m
  | _ =>
      let k := String.length m in
      let m' := if (k <=? f)%nat then repeat_string "0" (f + 1 - k) ++ m else m in
      let k' := String.length m' in
      take (k' - f) m' ++ "." ++ drop (k' - f) m'
  end.

Definition toFixed (x : number) (f : nat) : string :=
  match Prim2SF x with
  | S754_nan | S754_infinity _ => Number_toString x
  | S754_zero _ => fixed_text 0 f
  | S754_finite s m e =>
      let sign := if s then "-" else "" in
      if geb (PrimFloat.abs x) (Z2F (10 ^ 21))
      then sign ++ Number_toString (PrimFloat.abs x)
      else sign ++ fixed_text (fixed_round m e f) f
  end.

(** *** Reading a number from a string *)

(** One white space or line terminator at the head of [s] (the
    WhiteSpace and LineTerminator code points, in UTF-8), and the rest. *)
Definition white_space (s : string) : option string :=
  match s with
  | String c r =>
      let n := nat_of_ascii c in
      if ((9 <=? n) && (n <=? 13) || (n =? 32))%nat then Some r
      else
        match n, r with
        | 194%nat, String d r1 =>
            if (nat_of_ascii d =? 160)%nat then Some r1 else None
        | 225%nat, String d (String e r2) =>
            if ((nat_of_ascii d =? 154) && (nat_of_ascii e =? 128))%nat
            then Some r2 else None
        | 226%nat, String d (String e r2) =>
            let d := nat_of_ascii d in
            let e := nat_of_ascii e in
            if ((d =? 128)
                && ((128 <=? e) && (e <=? 138) || (e =? 168) || (e =? 169) || (e =? 175))
                || (d =? 129) && (e =? 159))%nat
            then Some r2 else None
        | 227%nat, String d (String e r2) =>
            if ((nat_of_ascii d =? 128) && (nat_of_ascii e =? 128))%nat
            then Some r2 else None
        | 239%nat, String d (String e r2) =>
            if ((nat_of_ascii d =? 187) && (nat_of_ascii e =? 191))%nat
            then Some r2 else None
        | _, _ => None
        end
  | "" => None
  end.

Fixpoint trim_start_fuel (fuel : nat) (s : string) : string :=
  match fuel with
  | O => s
  | S fuel' =>
      match white_space s with
      | Some r => trim_start_fuel fuel' r
      | None => s
      end
  end.

Definition trim_start (s : string) : string := trim_start_fuel (String.length s) s.

Fixpoint trim_end (s : string) : string :=
  match s with
  | "" => ""
  | String c r => if String.eqb (trim_start s) "" then "" else String c (trim_end r)
  end.

Definition strip_prefix (p s : string) : option string :=
  if String.prefix p s then Some (drop (String.length p) s) else None.

(** An optional sign: whether it is [-], and the rest. *)
Definition read_sign (s : string) : bool * string :=
  match s with
  | String "-" r => (true, r)
  | String "+" r => (false, r)
  | _ => (false, s)
  end.

(** The exponent part at the head of [s], when there is one. *)
Definition read_exponent (s : string) : Z * string :=
  match s with
  | String c r =>
      if Ascii.eqb c "e" || Ascii.eqb c "E" then
        let (neg, r1) := read_sign r in
        let (ds, r2) := span_digits r1 in
        if String.eqb ds "" then (0, s)
        else ((if neg then - digits_value ds else digits_value ds), r2)
      else (0, s)
  | "" => (0, s)
  end.

(** The longest StrUnsignedDecimalLiteral at the head of [s] other than
    [Infinity]: its value as [d * 10^e], and the rest. *)
Definition read_decimal (s : string) : option (Z * Z * string) :=
  let (ip, r1) := span_digits s in
  let (fp, r2) :=
    match r1 with
    | String "." r => span_digits r
    | _ => ("", r1)
    end in
  if String.eqb ip "" && String.eqb fp "" then None
  else
    let (e, r3) := read_exponent r2 in
    Some (digits_value (ip ++ fp), e - Z.of_nat (String.length fp), r3).

(** The double nearest to [d * 10^e], [d >= 0]. *)
Definition decimal_number (d e : Z) : number :=
  if 0 <=? e then Q2F (d * 10 ^ e) 1 else Q2F d (Z.to_pos (10 ^ (- e))).

Definition signed (neg : bool) (x : number) : number :=
  if neg then PrimFloat.opp x else x.

(** The longest StrDecimalLiteral at the head of [s]: its value, and the
    rest. *)
Definition read_number (s : string) : option (number * string) :=
  let (neg, r) := read_sign s in
  match strip_prefix "Infinity" r with
  | Some r' => Some (signed neg PrimFloat.infinity, r')
  | None =>
      match read_decimal r with
      | Some (d, e, r') => Some (signed neg (decimal_number d e), r')
      | None => None
      end
  end.

(** [parseFloat(s)] for a string [s]. *)
Definition parseFloat_string (s : string) : number :=
  match read_number (trim_start s) with
  | Some (x, _) => x
  | None => NaN
  end.

(** The value of a digit in radix 10 or 16. *)
Definition radix_digit (radix : Z) (c : ascii) : option Z :=
  let n := Z.of_nat (nat_of_ascii c) in
  let v := if (48 <=? n) && (n <=? 57) then n - 48
           else if (97 <=? n) && (n <=? 122) then n - 87
           else if (65 <=? n) && (n <=? 90) then n - 55
           else radix in
  if v <? radix then Some v else None.

Fixpoint read_radix (radix : Z) (acc : option Z) (s : string) : option Z :=
  match s with
  | String c r =>
      match radix_digit radix c with
      | Some v =>
          let a := match acc with Some a => a | None => 0 end in
          read_radix radix (Some (radix * a + v)) r
      | None => acc
      end
  | "" => acc
  end.

(** [parseInt(s)] for a string [s], without a radix argument. *)
Definition parseInt_string (s : string) : number :=
  let (neg, r) := read_sign (trim_start s) in
  let (radix, r) :=
    match strip_prefix "0x" r, strip_prefix "0X" r with
    | Some r', _ | None, Some r' => (16, r')
    | None, None => (10, r)
    end in
  match read_radix radix None r with
  | Some n => signed neg (Z2F n)
  | None => NaN
  end.

(** ToNumber on a string whose text is a StrDecimalLiteral, possibly
    surrounded by white space, or is empty; any other text gives [NaN].
    (The program applies it to results of [toFixed] only; the binary,
    octal and hexadecimal literals, which ToNumber reads as well, do not
    occur among them.) *)
Definition ToNumber_string (s : string) : number :=
  let t := trim_end (trim_start s) in
  if String.eqb t "" then PrimFloat.zero
  else
    match read_number t with
    | Some (x, "") => x
    | _ => NaN
    end.

(** *** Values: the program's results are numbers or strings *)

Inductive value : Type :=
| VNum (x : number)
| VStr (s : string).

Definition ToString (v : value) : string :=
  match v with
  | VNum x => Number_toString x
  | VStr s => s
  end.

Definition parseFloat (v : value) : number := parseFloat_string (ToString v).

(** *** Strings *)

(** [s.replace(c, '')] for a one-character pattern [c]: the first
    occurrence of [c] is removed. *)
Fixpoint remove_first (c : ascii) (s : string) : string :=
  match s with
  | "" => ""
  | String d r => if Ascii.eqb d c then r else String d (remove_first c r)
  end.

(** [s.toLowerCase()] on the letters of ASCII (the strings the program
    lowers, the trend names, are ASCII). *)
Definition lower (c : ascii) : ascii :=
  let n := nat_of_ascii c in
  if ((65 <=? n) && (n <=? 90))%nat then ascii_of_nat (n + 32) else c.

Fixpoint toLowerCase (s : string) : string :=
  match s with
  | "" => ""
  | String c r => String (lower c) (toLowerCase r)
  end.

(** [parts.join(sep)]. *)
Definition join (sep : string) (parts : list string) : string :=
  String.concat sep parts.

(** *** Arrays *)

(** [array.slice(0, n)] for a count [n]. *)
Definition slice0 {A} (n : nat) (l : list A) : list A := firstn n l.

(** [array.slice(mid)] for an index [mid]. *)
Definition slice_from {A} (n : nat) (l : list A) : list A := skipn n l.

(** [array.sort(comparefn)].  The comparator is given by the sign of its
    result ([Lt] negative, [Gt] positive, [Eq] zero or [NaN], which sort
    reads as zero).  The sort of ECMAScript is stable, and for a
    consistent comparator every stable sort gives the same array; the
    one written here is insertion sort, an element staying before the
    ones it does not compare greater than. *)
Section Sort.
Context {A : Type} (comparefn : A -> A -> comparison).

Fixpoint insert (x : A) (l : list A) : list A :=
  match l with
  | [] => [x]
  | y :: l' =>
      match comparefn x y with
      | Gt => y :: insert x l'
      | _ => x :: l
      end
  end.

Fixpoint sort (l : list A) : list A :=
  match l with
  | [] => []
  | x :: l' => insert x (sort l')
  end.
End Sort.

(** The sign of a number a comparator returns. *)
Definition sign_of (x : number) : comparison :=
  if PrimFloat.ltb x PrimFloat.zero then Lt
  else if PrimFloat.ltb PrimFloat.zero x then Gt
  else Eq.

(** [array.find(p)]. *)
Definition find {A} (p : A -> bool) (l : list A) : option A := List.find p l.

(** *** Objects used as dictionaries *)

Section Obj.
Context {A : Type}.

(** The own properties, in the order they were created. *)
Definition obj := list (string * A).

Definition empty : obj := [].

(** [o[k]], [undefined] being [None]. *)
Fixpoint get (o : obj) (k : string) : option A :=
  match o with
  | [] => None
  | (k', v) :: o' => if String.eqb k' k then Some v else get o' k
  end.

(** [o[k] = v]: an existing property keeps its place. *)
Fixpoint set (o : obj) (k : string) (v : A) : obj :=
  match o with
  | [] => [(k, v)]
  | (k', v') :: o' =>
      if String.eqb k' k then (k', v) :: o' else (k', v') :: set o' k v
  end.

(** The array index a property key denotes: a canonical decimal
    numeral below 2^32 - 1. *)
Definition array_index (k : string) : option N :=
  match NilZero.uint_of_string k with
  | Some u =>
      let n := N.of_uint u in
      if String.eqb (digits n) k && (n <? 4294967295)%N then Some n else None
  | None => None
  end.

Definition index_order (a b : string * A) : comparison :=
  match array_index (fst a), array_index (fst b) with
  | Some m, Some n => (m ?= n)%N
  | _, _ => Eq
  end.

Definition is_index (e : string * A) : bool :=
  match array_index (fst e) with Some _ => true | None => false end.

(** [Object.entries(o)]: the array indices in ascending order, then
    the other keys in creation order. *)
Definition Object_entries (o : obj) : list (string * A) :=
  sort index_order (filter is_index o) ++ filter (fun e => negb (is_index e)) o.

Definition Object_keys (o : obj) : list string := map fst (Object_entries o).
End Obj.

Arguments obj A : clear implicits.

(** *** Sets of strings *)

(** [new Set(keys)] iterated: each key once, at its first place. *)
Fixpoint Set_of (keys : list string) : list string :=
  match keys with
  | [] => []
  | k :: ks => k :: filter (fun k' => negb (String.eqb k' k)) (Set_of ks)
  end.

(** *** Completions *)

Inductive completion (A : Type) : Type :=
| Normal (a : A)
| Throw (error : string).

Arguments Normal {A} a.
Arguments Throw {A} error.

End JS.

Import JS.

Set Warnings "-inexact-float,-register-all".

(** ** Snapshots *)

(** A JSON value, for the fields the program reads without using them. *)
Inductive json : Type :=
| JNull
| JBool (b : bool)
| JNum (x : number)
| JStr (s : string)
| JArr (items : list json)
| JObj (members : list (string * json)).

(** [v?.k] on a JSON value, [undefined] being [None]. *)
Definition member (v : option json) (k : string) : option json :=
  match v with
  | Some (JObj members) => JS.get members k
  | _ => None
  end.

(** ToBoolean on a JSON value or [undefined]. *)
Definition json_truthy (v : option json) : bool :=
  match v with
  | None | Some JNull => false
  | Some (JBool b) => b
  | Some (JNum x) => truthy x
  | Some (JStr s) => negb (String.eqb s "")
  | Some (JArr _) | Some (JObj _) => true
  end.

(** [a || b] on JSON values. *)
Definition json_or (a b : option json) : option json :=
  if json_truthy a then a else b.

(** [scan.sentiment]: each percentage may be absent. *)
Record Sentiment : Type := {
  bullish : option number;
  bearish : option number
}.

(** One scan file, with the fields the functions below read.
    - [timestamp] is the time value of [new Date(scan.timestamp)], in
      milliseconds, [None] when the date is invalid (its [getTime()] is
      [NaN]);
    - [topTickers] is the array of [[symbol, count]] pairs;
    - [macroKeywords] and [commodityKeywords] are the objects, from
      keyword to count, with distinct keys.
    A field that may be absent is an option. *)
Record Snapshot : Type := {
  timestamp : option Z;
  sentiment : option Sentiment;
  topTickers : option (list (string * Z));
  byCategory : option json;
  macroKeywords : option (obj Z);
  commodityKeywords : option (obj Z)
}.

(** ** loadScans, loadAllScans *)

(** The data directory is given by what the file system holds: [None]
    when the directory does not exist, else one item per [.json] file in
    the order [readdirSync] lists them, [None] for a file that fails to
    read or to parse (the [catch] skips it). [now] is [Date.now()]. *)
Definition directory := option (list (option Snapshot)).

Definition cutoff (now : Z) (hoursBack : number) : number :=
  (Z2F now - hoursBack * 60 * 60 * 1000)%float.

(** [ts >= cutoff], with [ts = new Date(data.timestamp).getTime()]. *)
Definition recent_enough (c : number) (data : Snapshot) : bool :=
  match timestamp data with
  | Some ts => geb (Z2F ts) c
  | None => false
  end.

(** The sign of [new Date(a.timestamp) - new Date(b.timestamp)]. *)
Definition by_timestamp (a b : Snapshot) : comparison :=
  match timestamp a, timestamp b with
  | Some x, Some y => x ?= y
  | _, _ => Eq
  end.

(** The loop of [loadScans]: the array [scans] after the files. *)
Fixpoint pushScans (c : number) (files : list (option Snapshot)) : list Snapshot :=
  match files with
  | [] => []
  | None :: files' => pushScans c files'
  | Some data :: files' =>
      if recent_enough c data then data :: pushScans c files'
      else pushScans c files'
  end.

Definition loadScans (dir : directory) (now : Z) (hoursBack : number) : list Snapshot :=
  match dir with
  | None => []
  | Some files => JS.sort by_timestamp (pushScans (cutoff now hoursBack) files)
  end.

Fixpoint pushAllScans (files : list (option Snapshot)) : list Snapshot :=
  match files with
  | [] => []
  | None :: files' => pushAllScans files'
  | Some data :: files' => data :: pushAllScans files'
  end.

Definition loadAllScans (dir : directory) : list Snapshot :=
  match dir with
  | None => []
  | Some files => JS.sort by_timestamp (pushAllScans files)
  end.

(** ** analyzeSentiment *)

Record SentimentSummary : Type := {
  bull : value;
  bear : value;
  ratio : value;
  trend : string
}.

(** The literal the source returns for the ratio when no scan is
    bearish, with the bytes the source file has between its quotes. *)
Definition infinity_symbol : string := "‚àû".

(** [d.sentiment?.bullish || 0] and [d.sentiment?.bearish || 0]. *)
Definition bullish_of (d : Snapshot) : number :=
  or_zero (match sentiment d with Some s => bullish s | None => None end).

Definition bearish_of (d : Snapshot) : number :=
  or_zero (match sentiment d with Some s => bearish s | None => None end).

(** [scans.reduce((s, d) => s + f(d), 0)]. *)
Definition reduce_sum (f : Snapshot -> number) (scans : list Snapshot) : number :=
  fold_left (fun s d => (s + f d)%float) scans 0%float.

(** [scans.length || 1] as a number. *)
Definition length_or_1 (scans : list Snapshot) : number :=
  Z2F (Zor (Some (Z.of_nat (List.length scans))) 1).

Definition analyzeSentiment (scans : list Snapshot) : SentimentSummary :=
  match scans with
  | [] => {| bull := VNum 0%float; bear := VNum 0%float; ratio := VNum 0%float;
            trend := "UNKNOWN" |}
  | _ =>
      let bull := (reduce_sum bullish_of scans / length_number scans)%float in
      let bear := (reduce_sum bearish_of scans / length_number scans)%float in
      let ratio :=
        if gtb bear 0%float then toFixed (bull / bear)%float 2
        else if gtb bull 0%float then infinity_symbol else "0" in
      let mid := (List.length scans / 2)%nat in
      let firstHalf := slice0 mid scans in
      let secondHalf := slice_from mid scans in
      let firstBull := (reduce_sum bullish_of firstHalf / length_or_1 firstHalf)%float in
      let secondBull := (reduce_sum bullish_of secondHalf / length_or_1 secondHalf)%float in
      let trend :=
        if gtb secondBull (firstBull * 1.1)%float then "RISING"
        else if PrimFloat.ltb secondBull (firstBull * 0.9)%float then "DECLINING"
        else "STABLE" in
      {| bull := VStr (toFixed bull 1); bear := VStr (toFixed bear 1);
         ratio := VStr ratio; trend := trend |}
  end.

(** ** getTopTickers, getCommodities *)

Record Mention : Type := {
  name : string;
  mentions : Z
}.

(** [ticker.replace('$', '')]. *)
Definition clean_ticker (ticker : string) : string := remove_first "$" ticker.

(** [counts[k] = (counts[k] || 0) + count]. *)
Definition add_count (counts : obj Z) (k : string) (count : Z) : obj Z :=
  JS.set counts k (Zor (JS.get counts k) 0 + count).

(** The inner loop over [[ticker, count]] pairs. *)
Definition add_tickers (counts : obj Z) (tickers : list (string * Z)) : obj Z :=
  fold_left (fun counts tc => add_count counts (clean_ticker (fst tc)) (snd tc))
            tickers counts.

(** [scan.topTickers || []]. *)
Definition tickers_of (scan : Snapshot) : list (string * Z) :=
  match topTickers scan with
  | Some tickers => tickers
  | None => []
  end.

Definition count_tickers (scans : list Snapshot) : obj Z :=
  fold_left (fun counts scan => add_tickers counts (tickers_of scan)) scans JS.empty.

(** The sign of [b[1] - a[1]]. *)
Definition by_count_desc (a b : string * Z) : comparison := snd b ?= snd a.

Definition to_mention (e : string * Z) : Mention :=
  {| name := fst e; mentions := snd e |}.

Definition default_limit : nat := 15.

(** [limit] is [None] when the caller leaves it out. *)
Definition getTopTickers (scans : list Snapshot) (limit : option nat) : list Mention :=
  let limit := match limit with Some n => n | None => default_limit end in
  let counts := count_tickers scans in
  map to_mention (slice0 limit (JS.sort by_count_desc (Object_entries counts))).

Definition macro_commodities : list string :=
  ["gold"; "silver"; "copper"; "oil"; "corn"; "coffee"].

(** [list.includes(kw)]. *)
Definition includes (l : list string) (kw : string) : bool :=
  existsb (String.eqb kw) l.

(** [scan.macroKeywords || {}] and [scan.commodityKeywords || {}]. *)
Definition keywords_or_empty (o : option (obj Z)) : obj Z :=
  match o with
  | Some o => o
  | None => JS.empty
  end.

(** The body of the loop of [getCommodities] for one scan. *)
Definition add_commodities (commodities : obj Z) (scan : Snapshot) : obj Z :=
  let keywords :=
    json_or (json_or (member (byCategory scan) "commodities")
                     (member (byCategory scan) "metals"))
            (Some (JArr [])) in
  let macro := keywords_or_empty (macroKeywords scan) in
  let commodities :=
    fold_left (fun commodities e =>
                 if includes macro_commodities (fst e)
                 then add_count commodities (fst e) (snd e)
                 else commodities)
              (Object_entries macro) commodities in
  let ck := keywords_or_empty (commodityKeywords scan) in
  fold_left (fun commodities e => add_count commodities (fst e) (snd e))
            (Object_entries ck) commodities.

Definition getCommodities (scans : list Snapshot) : list Mention :=
  let commodities := fold_left add_commodities scans JS.empty in
  map to_mention (JS.sort by_count_desc (Object_entries commodities)).

(** ** getRegimeLabel, getFearLevel *)

Module Regime.
Record t : Type := { label : string; emoji : string; color : string }.
End Regime.

Module Fear.
Record t : Type := { level : string; emoji : string; color : string }.
End Fear.

Definition getRegimeLabel (ratio : value) : Regime.t :=
  let r := parseFloat ratio in
  if geb r 5%float then
    {| Regime.label := "EUPHORIA"; Regime.emoji := "üöÄ";
       Regime.color := "#00ff88" |}
  else if geb r 3%float then
    {| Regime.label := "BULLISH"; Regime.emoji := "üü¢";
       Regime.color := "#4ade80" |}
  else if geb r 1.5%float then
    {| Regime.label := "LEANING BULL"; Regime.emoji := "üü°";
       Regime.color := "#facc15" |}
  else if geb r 0.67%float then
    {| Regime.label := "NEUTRAL"; Regime.emoji := "‚ö™";
       Regime.color := "#94a3b8" |}
  else if geb r 0.33%float then
    {| Regime.label := "LEANING BEAR"; Regime.emoji := "üü†";
       Regime.color := "#fb923c" |}
  else
    {| Regime.label := "BEARISH"; Regime.emoji := "üî¥";
       Regime.color := "#ef4444" |}.

(** [commodities.find(c => c.name === 'gold')?.mentions || 0]. *)
Definition goldMentions (commodities : list Mention) : Z :=
  Zor (option_map mentions (JS.find (fun c => String.eqb (name c) "gold") commodities)) 0.

Definition perScan (commodities : list Mention) (scanCount : Z) : number :=
  if 0 <? scanCount then (Z2F (goldMentions commodities) / Z2F scanCount)%float
  else 0%float.

Definition getFearLevel (commodities : list Mention) (scanCount : Z) : Fear.t :=
  let perScan := perScan commodities scanCount in
  if geb perScan 5%float then
    {| Fear.level := "EXTREME"; Fear.emoji := "üî¥";
       Fear.color := "#ef4444" |}
  else if geb perScan 3%float then
    {| Fear.level := "HIGH"; Fear.emoji := "üü†";
       Fear.color := "#f97316" |}
  else if geb perScan 1.5%float then
    {| Fear.level := "ELEVATED"; Fear.emoji := "üü°";
       Fear.color := "#eab308" |}
  else
    {| Fear.level := "NORMAL"; Fear.emoji := "üü¢";
       Fear.color := "#22c55e" |}.

(** ** getMomentum *)

Module Momentum.
Record t : Type := {
  ticker : string;
  recentRate : string;
  priorRate : string;
  change : number;
  direction : string
}.
End Momentum.

(** [ts >= recentStart] on time values, an invalid one comparing false. *)
Definition at_or_after (ts recentStart : option Z) : bool :=
  match ts, recentStart with
  | Some a, Some b => b <=? a
  | _, _ => false
  end.

(** The first loop of [getMomentum], for one scan: its tickers are
    added to [recentTickers] or to [priorTickers]. *)
Definition bucket_scan (recentStart : option Z) (buckets : obj Z * obj Z)
    (scan : Snapshot) : obj Z * obj Z :=
  let (recentTickers, priorTickers) := buckets in
  if at_or_after (timestamp scan) recentStart
  then (add_tickers recentTickers (tickers_of scan), priorTickers)
  else (recentTickers, add_tickers priorTickers (tickers_of scan)).

Definition buckets (recentStart : option Z) (allScans : list Snapshot) : obj Z * obj Z :=
  fold_left (bucket_scan recentStart) allScans (JS.empty, JS.empty).

(** [allScans.length - recentScans.length || 1]. *)
Definition prior_length (allScans recentScans : list Snapshot) : Z :=
  Zor (Some (Z.of_nat (List.length allScans) - Z.of_nat (List.length recentScans))) 1.

Definition recent_count (recentTickers : obj Z) (ticker : string) : Z :=
  Zor (JS.get recentTickers ticker) 0.

Definition prior_count (priorTickers : obj Z) (ticker : string) : Z :=
  Zor (JS.get priorTickers ticker) 0.

Definition recent_rate (recentScans : list Snapshot) (recent : Z) : number :=
  (Z2F recent / length_number recentScans)%float.

Definition prior_rate (allScans recentScans : list Snapshot) (prior : Z) : number :=
  (Z2F prior / Z2F (prior_length allScans recentScans))%float.

(** [((recentRate - priorRate) / priorRate * 100).toFixed(0)]. *)
Definition change_text (recentRate priorRate : number) : string :=
  toFixed ((recentRate - priorRate) / priorRate * 100)%float 0.

(** The body of the second loop for one ticker: the entry it pushes on
    [results], if any. *)
Definition momentum_of (allScans recentScans : list Snapshot)
    (recentTickers priorTickers : obj Z) (ticker : string) : option Momentum.t :=
  let recent := recent_count recentTickers ticker in
  let prior := prior_count priorTickers ticker in
  if recent + prior <? 5 then None
  else
    let recentRate := recent_rate recentScans recent in
    let priorRate := prior_rate allScans recentScans prior in
    if gtb priorRate 0%float then
      let change := change_text recentRate priorRate in
      if gtb (PrimFloat.abs (ToNumber_string change)) 30%float then
        Some {| Momentum.ticker := ticker;
                Momentum.recentRate := toFixed recentRate 2;
                Momentum.priorRate := toFixed priorRate 2;
                Momentum.change := parseInt_string change;
                Momentum.direction :=
                  if gtb (ToNumber_string change) 0%float then "up" else "down" |}
      else None
    else if 3 <=? recent then
      Some {| Momentum.ticker := ticker;
              Momentum.recentRate := toFixed recentRate 2;
              Momentum.priorRate := "0.00";
              Momentum.change := 999%float;
              Momentum.direction := "new" |}
    else None.

(** The array [results] after the second loop. *)
Fixpoint pushResults (allScans recentScans : list Snapshot)
    (recentTickers priorTickers : obj Z) (tickers : list string) : list Momentum.t :=
  match tickers with
  | [] => []
  | ticker :: tickers' =>
      match momentum_of allScans recentScans recentTickers priorTickers ticker with
      | Some m => m :: pushResults allScans recentScans recentTickers priorTickers tickers'
      | None => pushResults allScans recentScans recentTickers priorTickers tickers'
      end
  end.

(** The sign of [Math.abs(b.change) - Math.abs(a.change)]. *)
Definition by_change_desc (a b : Momentum.t) : comparison :=
  sign_of (PrimFloat.abs (Momentum.change b) - PrimFloat.abs (Momentum.change a))%float.

(** [results] before it is sorted and cut, for a first recent scan. *)
Definition momentum_results (allScans recentScans : list Snapshot) (first : Snapshot)
    : list Momentum.t :=
  let recentStart := timestamp first in
  let (recentTickers, priorTickers) := buckets recentStart allScans in
  let allTickers := Set_of (Object_keys recentTickers ++ Object_keys priorTickers) in
  pushResults allScans recentScans recentTickers priorTickers allTickers.

(** Reading [recentScans[0].timestamp] throws on an empty array. *)
Definition getMomentum (allScans recentScans : list Snapshot)
    : completion (list Momentum.t) :=
  if (List.length allScans <? 40)%nat || (List.length recentScans <? 10)%nat then Normal []
  else
    match recentScans with
    | [] => Throw "TypeError"
    | first :: _ =>
        Normal (slice0 12 (JS.sort by_change_desc
                             (momentum_results allScans recentScans first)))
    end.

(** ** generateNarrative *)

Definition opening (sentiment : SentimentSummary) (regime : Regime.t) : string :=
  if String.eqb (Regime.label regime) "EUPHORIA" then
    "CT is running hot. Multiple signals pointing toward risk-on euphoria."
  else if String.eqb (Regime.label regime) "BULLISH" then
    "Structural optimism holds with a " ++ ToString (ratio sentiment)
      ++ ":1 bull/bear ratio, though the mood is " ++ toLowerCase (trend sentiment) ++ "."
  else if String.eqb (Regime.label regime) "NEUTRAL" then
    "Markets are in wait-and-see mode. Neither conviction nor fear dominating."
  else
    "Caution dominates. Bears have the floor.".

Definition extreme_sentence : string :=
  "Gold mentions are at extreme levels ‚Äî historically this precedes volatility, not necessarily direction.".

Definition high_sentence : string :=
  "The fear gauge is elevated. Commodity mentions suggest macro uncertainty is on traders' minds.".

(** What the fear gauge pushes on [parts]. *)
Definition fear_parts (fear : Fear.t) : list string :=
  if String.eqb (Fear.level fear) "EXTREME" then [extreme_sentence]
  else if String.eqb (Fear.level fear) "HIGH" then [high_sentence]
  else [].

Definition is_rising (m : Momentum.t) : bool :=
  String.eqb (Momentum.direction m) "up" || String.eqb (Momentum.direction m) "new".

Definition is_falling (m : Momentum.t) : bool :=
  String.eqb (Momentum.direction m) "down".

Definition rising_of (momentum : list Momentum.t) : list Momentum.t :=
  slice0 3 (filter is_rising momentum).

Definition falling_of (momentum : list Momentum.t) : list Momentum.t :=
  slice0 3 (filter is_falling momentum).

(** [list.map(m => '$' + m.ticker).join(', ')]. *)
Definition ticker_list (l : list Momentum.t) : string :=
  join ", " (map (fun m => "$" ++ Momentum.ticker m) l).

Definition rising_sentence (rising : list Momentum.t) : string :=
  "Attention building on " ++ ticker_list rising ++ ".".

Definition falling_sentence (falling : list Momentum.t) : string :=
  "Narrative fading for " ++ ticker_list falling ++ ".".

(** [rising.length] and [falling.length] as conditions. *)
Definition rising_parts (momentum : list Momentum.t) : list string :=
  match rising_of momentum with
  | [] => []
  | rising => [rising_sentence rising]
  end.

Definition falling_parts (momentum : list Momentum.t) : list string :=
  match falling_of momentum with
  | [] => []
  | falling => [falling_sentence falling]
  end.

(** The array [parts] when the function returns. *)
Definition narrative_parts (sentiment : SentimentSummary) (regime : Regime.t)
    (fear : Fear.t) (momentum : list Momentum.t) : list string :=
  [opening sentiment regime]
    ++ fear_parts fear ++ rising_parts momentum ++ falling_parts momentum.

Definition generateNarrative (sentiment : SentimentSummary) (regime : Regime.t)
    (fear : Fear.t) (tickers : list Mention) (momentum : list Momentum.t) : string :=
  join " " (narrative_parts sentiment regime fear momentum).

(** ** getDataDir, and the directory the loaders read *)

(** What the file system holds at a path: nothing, something that is
    not a directory, or a directory, given by the names [readdirSync]
    lists with, for each, the snapshot
    [JSON.parse(fs.readFileSync(path.join(dataDir, file)))] gives, [None]
    when reading or parsing throws. *)
Inductive node : Type :=
| Missing
| NotDirectory
| Directory (files : list (string * option Snapshot)).

Definition filesystem := string -> node.

(** [fs.existsSync(path)]. *)
Definition existsSync (fs : filesystem) (path : string) : bool :=
  match fs path with
  | Missing => false
  | _ => true
  end.

(** [DATA_DIRS] holds two paths, which depend on where the program
    runs: the first one that exists is the data directory, the first one
    when none exists. *)
Definition getDataDir (fs : filesystem) (DATA_DIRS : string * string) : string :=
  if existsSync fs (fst DATA_DIRS) then fst DATA_DIRS
  else if existsSync fs (snd DATA_DIRS) then snd DATA_DIRS
  else fst DATA_DIRS.

(** [name.endsWith(suffix)]. *)
Definition endsWith (name suffix : string) : bool :=
  (String.length suffix <=? String.length name)%nat
  && String.eqb (drop (String.length name - String.length suffix) name) suffix.

(** [f => f.endsWith('.json')] on a listed file. *)
Definition is_json (f : string * option Snapshot) : bool := endsWith (fst f) ".json".

(** What [loadScans] and [loadAllScans] find: nothing when the data path
    is missing, the [.json] files of the data directory otherwise;
    [readdirSync] throws on a path that is not a directory. *)
Definition data_directory (fs : filesystem) (DATA_DIRS : string * string)
    : completion directory :=
  match fs (getDataDir fs DATA_DIRS) with
  | Missing => Normal None
  | NotDirectory => Throw "ENOTDIR"
  | Directory files => Normal (Some (map snd (filter is_json files)))
  end.

(** [loadScans(hoursBack)] and [loadAllScans()] on a file system. *)
Definition loadScans_on (fs : filesystem) (DATA_DIRS : string * string) (now : Z)
    (hoursBack : number) : completion (list Snapshot) :=
  match data_directory fs DATA_DIRS with
  | Normal dir => Normal (loadScans dir now hoursBack)
  | Throw error => Throw error
  end.

Definition loadAllScans_on (fs : filesystem) (DATA_DIRS : string * string)
    : completion (list Snapshot) :=
  match data_directory fs DATA_DIRS with
  | Normal dir => Normal (loadAllScans dir)
  | Throw error => Throw error
  end.

(** ** getHighEngagement *)

(** The text of a post, as its UTF-16 code units (the units [slice]
    counts). *)
Definition units := list N.

(** [a || b] on strings, texts and integers that may be [undefined]: [a]
    when it is truthy (not [undefined], not empty, not 0), else [b]. *)
Definition string_or (a b : option string) : option string :=
  match a with
  | Some s => if String.eqb s "" then b else a
  | None => b
  end.

Definition units_or (a b : option units) : option units :=
  match a with
  | Some [] | None => b
  | Some _ => a
  end.

Definition number_or (a b : option Z) : option Z :=
  match a with
  | Some v => if v =? 0 then b else a
  | None => b
  end.

(** An item of [scan.highEngagement], with the fields the function
    reads; a field that may be absent is an option. *)
Module RawPost.
Record t : Type := {
  author : option string;
  username : option string;
  likes : option Z;
  engagement : option Z;
  text : option units;
  content : option units;
  url : option string
}.
End RawPost.

(** An item of the result. *)
Module Post.
Record t : Type := {
  author : option string;
  likes : option Z;
  text : units;
  url : option string
}.
End Post.

(** [(post.text || post.content || '')]. *)
Definition text_of (post : RawPost.t) : units :=
  match units_or (units_or (RawPost.text post) (RawPost.content post)) (Some []) with
  | Some t => t
  | None => []
  end.

(** The object pushed on [posts] for one item. *)
Definition to_post (post : RawPost.t) : Post.t :=
  {| Post.author := string_or (RawPost.author post) (RawPost.username post);
     Post.likes := number_or (RawPost.likes post) (RawPost.engagement post);
     Post.text := slice0 200 (text_of post);
     Post.url := RawPost.url post |}.

(** A scan with its [highEngagement] field, which [Snapshot] leaves out. *)
Record PostedScan : Type := {
  snapshot : Snapshot;
  highEngagement : option (list RawPost.t)
}.

(** [scan.highEngagement || []]. *)
Definition posts_of (scan : PostedScan) : list RawPost.t :=
  match highEngagement scan with
  | Some hp => hp
  | None => []
  end.

(** The array [posts] after the loops. *)
Definition all_posts (scans : list PostedScan) : list Post.t :=
  flat_map (fun scan => map to_post (posts_of scan)) scans.

(** The filter on [posts], with the set [seen] of the URLs kept so far:
    [!p.url || seen.has(p.url)] drops the post. *)
Fixpoint dedupe (seen : list string) (posts : list Post.t) : list Post.t :=
  match posts with
  | [] => []
  | p :: posts' =>
      match Post.url p with
      | Some u =>
          if String.eqb u "" || existsb (String.eqb u) seen then dedupe seen posts'
          else p :: dedupe (u :: seen) posts'
      | None => dedupe seen posts'
      end
  end.

(** The sign of [(b.likes || 0) - (a.likes || 0)]. *)
Definition by_likes_desc (a b : Post.t) : comparison :=
  Zor (Post.likes b) 0 ?= Zor (Post.likes a) 0.

Definition default_posts : nat := 5.

(** [limit] is [None] when the caller leaves it out. *)
Definition getHighEngagement (scans : list PostedScan) (limit : option nat)
    : list Post.t :=
  let limit := match limit with Some n => n | None => default_posts end in
  slice0 limit (JS.sort by_likes_desc (dedupe [] (all_posts scans))).

(** ** escapeHtml *)

(** [s.replace(/c/g, by)] for a one-character pattern [c]. *)
Fixpoint replace_all (c : ascii) (by_ : string) (s : string) : string :=
  match s with
  | "" => ""
  | String d r =>
      if Ascii.eqb d c then by_ ++ replace_all c by_ r
      else String d (replace_all c by_ r)
  end.

(** The double quote character. *)
Definition double_quote : ascii := ascii_of_nat 34.

Definition escapeHtml (str : string) : string :=
  replace_all double_quote "&quot;"
    (replace_all ">" "&gt;" (replace_all "<" "&lt;" (replace_all "&" "&amp;" str))).

(** ** The route [/api/brief] *)

(** [parseInt(req.query.hours) || 24]: the query parameter is a string,
    or [undefined] ([None]), which [parseInt] reads as [NaN]. *)
Definition hours_of (query : option string) : number :=
  let h := match query with Some s => parseInt_string s | None => NaN end in
  if truthy h then h else 24%float.

(** The object the route sends, without its [generated] time stamp. *)
Module BriefRegime.
Record t : Type := {
  label : string;
  bull : value;
  bear : value;
  ratio : value;
  trend : string;
  fear : string
}.
End BriefRegime.

Module Brief.
Record t : Type := {
  window : string;
  scanCount : nat;
  totalScans : nat;
  regime : BriefRegime.t;
  tickers : list Mention;
  commodities : list Mention;
  momentum : list Momentum.t;
  narrative : string
}.
End Brief.

(** The body of the handler once the two loaders have returned. *)
Definition brief_of (hours : number) (scans allScans : list Snapshot)
    : completion Brief.t :=
  let sentiment := analyzeSentiment scans in
  let regime := getRegimeLabel (ratio sentiment) in
  let tickers := getTopTickers scans None in
  let commodities := getCommodities scans in
  let fear := getFearLevel commodities (Z.of_nat (List.length scans)) in
  match getMomentum allScans scans with
  | Throw error => Throw error
  | Normal momentum =>
      Normal
        {| Brief.window := Number_toString hours ++ "h";
           Brief.scanCount := List.length scans;
           Brief.totalScans := List.length allScans;
           Brief.regime :=
             {| BriefRegime.label := Regime.label regime;
                BriefRegime.bull := bull sentiment;
                BriefRegime.bear := bear sentiment;
                BriefRegime.ratio := ratio sentiment;
                BriefRegime.trend := trend sentiment;
                BriefRegime.fear := Fear.level fear |};
           Brief.tickers := tickers;
           Brief.commodities := commodities;
           Brief.momentum := momentum;
           Brief.narrative :=
             generateNarrative sentiment regime fear tickers momentum |}
  end.

(** The handler, on the file system and the clock it reads. *)
Definition apiBrief (query : option string) (fs : filesystem)
    (DATA_DIRS : string * string) (now : Z) : completion Brief.t :=
  let hours := hours_of query in
  match loadScans_on fs DATA_DIRS now hours with
  | Throw error => Throw error
  | Normal scans =>
      match loadAllScans_on fs DATA_DIRS with
      | Throw error => Throw error
      | Normal allScans => brief_of hours scans allScans
      end
  end.


(** ** The other routes of the API *)


(** The object [/api/brief/compact] sends. *)
Module Compact.
Record t : Type := {
  regime : string;
  sentiment : string;
  ratio : string;
  trend : string;
  fear : string;
  topTickers : string;
  scans : nat
}.
End Compact.



(** The object [/api/tickers] sends. *)
Module Tickers.
Record t : Type := {
  window : string;
  scanCount : nat;
  tickers : list Mention
}.
End Tickers.


(** The object [/api/fear] sends. *)
Module FearReport.
Record t : Type := {
  window : string;
  scanCount : nat;
  level : string;
  commodities : list Mention
}.
End FearReport.


(** The object [/api/momentum] sends. *)
Module MomentumReport.
Record t : Type := {
  window : string;
  momentum : list Momentum.t
}.
End MomentumReport.


(** ** The start-up log *)


(** * Vocabulary of the properties

    What the statements below speak of: the notions of the
    specification (the readable snapshots, the total of a symbol, the
    order of a ranking, ...) and the concrete scans on which statements
    are evaluated. *)

Local Open Scope list_scope.

(** ** Orders *)

(** [a] is before [b] in the integer key. *)
Definition key_le {A : Type} (key : A -> Z) (a b : A) : Prop := key a <= key b.

(** ** Windowing *)




(** A scan that holds a timestamp only. *)
Definition scan_at (ts : option Z) : Snapshot :=
  {| timestamp := ts; sentiment := None; topTickers := None; byCategory := None;
     macroKeywords := None; commodityKeywords := None |}.


(** ** Ticker aggregation *)

(** All [[symbol, count]] pairs of the scans, in order. *)
Definition all_tickers (scans : list Snapshot) : list (string * Z) :=
  flat_map tickers_of scans.

(** The sum of the counts of the pairs whose cleaned symbol is [k]. *)
Fixpoint total (k : string) (pairs : list (string * Z)) : Z :=
  match pairs with
  | [] => 0
  | tc :: pairs' =>
      (if String.eqb (clean_ticker (fst tc)) k then snd tc else 0) + total k pairs'
  end.

(** [counts[k] || 0]. *)
Definition count_of (counts : obj Z) (k : string) : Z := Zor (JS.get counts k) 0.

(** Some pair has the cleaned symbol [k]. *)
Definition seen (k : string) (pairs : list (string * Z)) : Prop :=
  exists tc, In tc pairs /\ clean_ticker (fst tc) = k.






(** ** Commodity aggregation *)

(** Two scans with the same keyword objects, whatever else they hold. *)
Definition same_keywords (a b : Snapshot) : Prop :=
  macroKeywords a = macroKeywords b /\ commodityKeywords a = commodityKeywords b.

(** A scan with commodity keywords, and the [byCategory] given. *)
Definition gold_scan (category : option json) : Snapshot :=
  {| timestamp := Some 0; sentiment := None; topTickers := None;
     byCategory := category;
     macroKeywords := Some [("gold", 4); ("rates", 9); ("oil", 1)];
     commodityKeywords := Some [("wheat", 2); ("gold", 3)] |}.

Definition metals_category : option json :=
  Some (JObj [("commodities", JArr [JStr "gold"; JStr "uranium"]);
              ("metals", JObj [("gold", JNum 100%float)])]).

(** ** Fear classifier *)

(** The thresholds of the fear gauge on the rate of gold mentions per
    scan, in the words of the specification: at least 5, at least 3, at
    least 1.5, below. *)
Definition fear_of_rate (rate : number) : string :=
  if geb rate 5%float then "EXTREME"
  else if geb rate 3%float then "HIGH"
  else if geb rate 1.5%float then "ELEVATED"
  else "NORMAL".

(** ** Narrative *)




(** ** Sentiment *)

(** The mean bullish value of a non-empty set, as the source computes it. *)
Definition mean_bullish (scans : list Snapshot) : number :=
  (reduce_sum bullish_of scans / length_number scans)%float.

(** A scan 50% bullish and 0% bearish. *)
Definition bullish_scan : Snapshot :=
  {| timestamp := Some 0;
     sentiment := Some {| bullish := Some 50%float; bearish := Some 0%float |};
     topTickers := None; byCategory := None;
     macroKeywords := None; commodityKeywords := None |}.

(** ** Momentum *)

(** A scan with sentiment and tickers. *)
Definition busy_scan : Snapshot :=
  {| timestamp := Some 1700000000000;
     sentiment := Some {| bullish := Some 60%float; bearish := Some 20%float |};
     topTickers := Some [("$BTC", 100); ("$ETH", 50)]; byCategory := None;
     macroKeywords := None; commodityKeywords := None |}.


(** A scan without tickers. *)
Definition quiet_scan (ts : Z) : Snapshot :=
  {| timestamp := Some ts; sentiment := None; topTickers := Some [];
     byCategory := None; macroKeywords := None; commodityKeywords := None |}.













(** ** Commodity totals *)

(** Whether a macro keyword is folded into the commodities. *)
Definition allowed (e : string * Z) : bool := includes macro_commodities (fst e).

Definition keep_all (e : string * Z) : bool := true.

(** The [keyword, count] entries a scan contributes: its macro keywords
    of the allow-list, and all its commodity keywords. *)
Definition contributions (scan : Snapshot) : list (string * Z) :=
  filter allowed (keywords_or_empty (macroKeywords scan))
  ++ keywords_or_empty (commodityKeywords scan).

Definition all_contributions (scans : list Snapshot) : list (string * Z) :=
  flat_map contributions scans.

(** The sum of the counts of the entries of keyword [k]. *)
Fixpoint keyword_total (k : string) (entries : list (string * Z)) : Z :=
  match entries with
  | [] => 0
  | e :: entries' =>
      (if String.eqb (fst e) k then snd e else 0) + keyword_total k entries'
  end.

(** Some entry is of keyword [k]. *)
Definition mentioned (k : string) (entries : list (string * Z)) : Prop :=
  exists e, In e entries /\ fst e = k.

(** Folding [add_count] over entries, those that [keep] rejects skipped. *)
Definition add_entries (keep : string * Z -> bool) (counts : obj Z)
    (entries : list (string * Z)) : obj Z :=
  fold_left (fun counts e => if keep e then add_count counts (fst e) (snd e) else counts)
            entries counts.

(** The object [commodities] after the loop of [getCommodities]. *)
Definition commodity_counts (scans : list Snapshot) : obj Z :=
  fold_left add_commodities scans JS.empty.

(** A scan that mentions oil and rates, not gold. *)
Definition oil_scan : Snapshot :=
  {| timestamp := Some 0; sentiment := None; topTickers := None; byCategory := None;
     macroKeywords := Some [("oil", 40); ("rates", 90)];
     commodityKeywords := Some [("wheat", 20)] |}.

(** ** History *)



(** ** High-engagement posts *)

(** Whether the URL of [p] is [u]. *)
Definition has_url (u : string) (p : Post.t) : bool :=
  match Post.url p with
  | Some v => String.eqb v u
  | None => false
  end.

Definition likes_ge (a b : Post.t) : Prop :=
  Zor (Post.likes a) 0 >= Zor (Post.likes b) 0.

(** The posts kept, in rank order, before the limit cuts them. *)
Definition ranked_posts (scans : list PostedScan) : list Post.t :=
  JS.sort by_likes_desc (dedupe [] (all_posts scans)).

Definition limit_of_posts (limit : option nat) : nat :=
  match limit with Some n => n | None => default_posts end.

(** ** Escaping *)

(** Whether [c] occurs in [s]. *)
Fixpoint occurs (c : ascii) (s : string) : bool :=
  match s with
  | "" => false
  | String d r => Ascii.eqb d c || occurs c r
  end.

(** What one character becomes. *)
Definition escape_char (c : ascii) : string :=
  if Ascii.eqb c "&" then "&amp;"
  else if Ascii.eqb c "<" then "&lt;"
  else if Ascii.eqb c ">" then "&gt;"
  else if Ascii.eqb c double_quote then "&quot;"
  else String c "".

(** The characters that open or close a tag or an attribute value. *)
Definition markup (c : ascii) : bool :=
  Ascii.eqb c "<" || Ascii.eqb c ">" || Ascii.eqb c double_quote.

(** ** Sentiment and classification *)

(** A number that is [+0], [-0] or [NaN]. *)
Definition null (x : number) : Prop :=
  match Prim2SF x with
  | S754_zero _ | S754_nan => True
  | _ => False
  end.

(** A scan whose bullish and bearish values are 0 or absent. *)
Definition no_sentiment (d : Snapshot) : Prop :=
  bullish_of d = 0%float /\ bearish_of d = 0%float.

(** The tiers of the regime, from the lowest. *)
Definition regime_rank (label : string) : nat :=
  if String.eqb label "EUPHORIA" then 5
  else if String.eqb label "BULLISH" then 4
  else if String.eqb label "LEANING BULL" then 3
  else if String.eqb label "NEUTRAL" then 2
  else if String.eqb label "LEANING BEAR" then 1
  else 0.

(** The levels of the fear gauge, from the lowest. *)
Definition fear_rank (level : string) : nat :=
  if String.eqb level "EXTREME" then 3
  else if String.eqb level "HIGH" then 2
  else if String.eqb level "ELEVATED" then 1
  else 0.

(** ** The brief *)

(** The brief of an empty window. *)
Definition empty_brief (hours : number) (total : nat) : Brief.t :=
  {| Brief.window := (Number_toString hours ++ "h")%string;
     Brief.scanCount := 0;
     Brief.totalScans := total;
     Brief.regime :=
       {| BriefRegime.label := "BEARISH";
          BriefRegime.bull := VNum 0%float;
          BriefRegime.bear := VNum 0%float;
          BriefRegime.ratio := VNum 0%float;
          BriefRegime.trend := "UNKNOWN";
          BriefRegime.fear := "NORMAL" |};
     Brief.tickers := [];
     Brief.commodities := [];
     Brief.momentum := [];
     Brief.narrative := "Caution dominates. Bears have the floor." |}.

(** A file system without data, one whose data path is a file, and one
    with a data directory of old scans beside other files. *)
Definition no_data : filesystem := fun _ => Missing.

Definition data_is_file : filesystem :=
  fun path => if String.eqb path "/app/data" then NotDirectory else Missing.

Definition old_data : filesystem :=
  fun path =>
    if String.eqb path "/home/ct-scanner/data"
    then Directory [ ("a.json", Some (scan_at (Some 1000))); ("notes.txt", None);
                     ("b.json", None); ("c.json", Some (scan_at (Some 2000)));
                     ("d.json.bak", Some (scan_at (Some 1700000000000))) ]
    else Missing.

Definition data_dirs : string * string := ("/app/data", "/home/ct-scanner/data").



(** * Properties *)

(** ** Sorting *)

Section SortFacts.
Context {A : Type} (comparefn : A -> A -> comparison).

Lemma insert_perm (x : A) (l : list A) :
  Permutation (JS.insert comparefn x l) (x :: l).
Proof.
  induction l as [|y l IH]; simpl.
  - apply Permutation_refl.
  - destruct (comparefn x y); try apply Permutation_refl.
    eapply perm_trans; [apply perm_skip, IH | apply perm_swap].
Qed.

Lemma sort_perm (l : list A) : Permutation (JS.sort comparefn l) l.
Proof.
  induction l as [|x l IH]; simpl.
  - apply perm_nil.
  - eapply perm_trans; [apply insert_perm | apply perm_skip, IH].
Qed.

Lemma sort_In (l : list A) (x : A) : In x (JS.sort comparefn l) <-> In x l.
Proof.
  split; apply Permutation_in;
    [apply sort_perm | apply Permutation_sym, sort_perm].
Qed.

Lemma sort_length (l : list A) : List.length (JS.sort comparefn l) = List.length l.
Proof. apply Permutation_length, sort_perm. Qed.

(** When the comparator orders the elements of the array by an integer
    key, the sorted array is ascending in that key. *)
Variable key : A -> Z.

Lemma insert_sorted (x : A) (l : list A) :
  (forall y, In y l -> comparefn x y = (key x ?= key y)) ->
  StronglySorted (key_le key) l ->
  StronglySorted (key_le key) (JS.insert comparefn x l).
Proof.
  intros Hcmp Hs. induction Hs as [|y l Hs IH Hall]; simpl.
  - constructor; [constructor | constructor].
  - rewrite (Hcmp y (or_introl eq_refl)).
    destruct (Z.compare_spec (key x) (key y)) as [E|L|G].
    + constructor; [constructor; assumption |].
      constructor; [unfold key_le; lia |].
      eapply Forall_impl; [| exact Hall]. unfold key_le. intros; lia.
    + constructor; [constructor; assumption |].
      constructor; [unfold key_le; lia |].
      eapply Forall_impl; [| exact Hall]. unfold key_le. intros; lia.
    + constructor.
      * apply IH. intros z Hz. apply Hcmp. right; exact Hz.
      * apply Forall_forall. intros z Hz.
        apply (Permutation_in _ (insert_perm x l)) in Hz.
        destruct Hz as [ <- |Hz]; [unfold key_le; lia |].
        rewrite Forall_forall in Hall. apply Hall, Hz.
Qed.

Lemma sort_sorted (l : list A) :
  (forall x y, In x l -> In y l -> comparefn x y = (key x ?= key y)) ->
  StronglySorted (key_le key) (JS.sort comparefn l).
Proof.
  induction l as [|x l IH]; intros Hcmp; simpl.
  - constructor.
  - apply insert_sorted.
    + intros y Hy. apply Hcmp; [left; reflexivity | right].
      apply (sort_In l y), Hy.
    + apply IH. intros a b Ha Hb. apply Hcmp; right; assumption.
Qed.
End SortFacts.

Lemma In_slice0 {A} (n : nat) (l : list A) (x : A) :
  In x (JS.slice0 n l) -> In x l.
Proof.
  unfold JS.slice0. revert n.
  induction l as [|y l IH]; intros [|n]; simpl; try tauto.
  intros [ -> |H]; [left; reflexivity | right; eapply IH, H].
Qed.

Lemma slice0_sorted {A} (R : A -> A -> Prop) (n : nat) (l : list A) :
  StronglySorted R l -> StronglySorted R (JS.slice0 n l).
Proof.
  unfold JS.slice0. intros Hs. revert n.
  induction Hs as [|x l Hs IH Hall]; intros [|n]; simpl; try constructor.
  - apply IH.
  - rewrite Forall_forall in *. intros y Hy. apply Hall.
    apply (In_slice0 n l y Hy).
Qed.

Lemma slice0_length {A} (n : nat) (l : list A) :
  (List.length (JS.slice0 n l) <= n)%nat.
Proof. unfold JS.slice0. apply firstn_le_length. Qed.

Lemma slice0_all {A} (n : nat) (l : list A) :
  (List.length l <= n)%nat -> JS.slice0 n l = l.
Proof. unfold JS.slice0. apply firstn_all2. Qed.

(** ** Objects *)

Section ObjFacts.
Context {A : Type}.
Implicit Types (o : obj A) (k : string) (v : A).

Lemma get_set o k v k' :
  JS.get (JS.set o k v) k' = if String.eqb k k' then Some v else JS.get o k'.
Proof.
  induction o as [|[k0 v0] o IH]; simpl.
  - destruct (String.eqb_spec k k'); reflexivity.
  - destruct (String.eqb_spec k0 k) as [ -> |Hk0]; simpl.
    + destruct (String.eqb_spec k k'); reflexivity.
    + rewrite IH. destruct (String.eqb_spec k0 k') as [ -> |Hk0'].
      * destruct (String.eqb_spec k k'); [subst; contradiction | reflexivity].
      * reflexivity.
Qed.

Lemma get_In o k v : JS.get o k = Some v -> In (k, v) o.
Proof.
  induction o as [|[k0 v0] o IH]; simpl; [discriminate |].
  destruct (String.eqb_spec k0 k) as [ -> |Hk].
  - intros [= ->]. left; reflexivity.
  - intros H. right. apply IH, H.
Qed.

Lemma get_None o k : JS.get o k = None -> ~ In k (map fst o).
Proof.
  induction o as [|[k0 v0] o IH]; simpl; [tauto |].
  destruct (String.eqb_spec k0 k) as [ -> |Hk]; [discriminate |].
  intros H [E|Hin]; [contradiction | exact (IH H Hin)].
Qed.

Lemma In_get o k v : NoDup (map fst o) -> In (k, v) o -> JS.get o k = Some v.
Proof.
  induction o as [|[k0 v0] o IH]; simpl; [tauto |].
  intros Hnd [E|Hin].
  - injection E as -> ->. rewrite String.eqb_refl. reflexivity.
  - inversion Hnd as [|? ? Hnot Hnd']; subst.
    destruct (String.eqb_spec k0 k) as [ -> |Hk].
    + exfalso. apply Hnot. apply (in_map fst _ _ Hin).
    + apply IH; assumption.
Qed.

Lemma keys_set o k v :
  map fst (JS.set o k v) =
  match JS.get o k with Some _ => map fst o | None => map fst o ++ [k] end.
Proof.
  induction o as [|[k0 v0] o IH]; simpl; [reflexivity |].
  destruct (String.eqb_spec k0 k) as [ -> |Hk]; simpl; [reflexivity |].
  rewrite IH. destruct (JS.get o k); reflexivity.
Qed.

Lemma NoDup_set o k v : NoDup (map fst o) -> NoDup (map fst (JS.set o k v)).
Proof.
  intros Hnd. rewrite keys_set. destruct (JS.get o k) eqn:E; [exact Hnd |].
  apply NoDup_app; [exact Hnd | repeat constructor; simpl; tauto |].
  intros x Hx [Hk|[]]. subst x. exact (get_None o k E Hx).
Qed.

Lemma filter_split (p : string * A -> bool) o :
  Permutation (filter p o ++ filter (fun e => negb (p e)) o) o.
Proof.
  induction o as [|e o IH]; simpl; [constructor |].
  destruct (p e); simpl.
  - apply perm_skip, IH.
  - apply Permutation_sym, Permutation_cons_app, Permutation_sym, IH.
Qed.

Lemma entries_perm o : Permutation (Object_entries o) o.
Proof.
  unfold Object_entries.
  eapply perm_trans; [| apply (filter_split is_index)].
  apply Permutation_app_tail, sort_perm.
Qed.

Lemma entries_In o e : In e (Object_entries o) <-> In e o.
Proof.
  split; apply Permutation_in;
    [apply entries_perm | apply Permutation_sym, entries_perm].
Qed.

End ObjFacts.

Lemma StronglySorted_weaken {A} (R R' : A -> A -> Prop) (l : list A) :
  (forall a b, In a l -> In b l -> R a b -> R' a b) ->
  StronglySorted R l -> StronglySorted R' l.
Proof.
  intros Himp Hs. induction Hs as [|x l Hs IH Hall]; constructor.
  - apply IH. intros a b Ha Hb. apply Himp; right; assumption.
  - rewrite Forall_forall in *. intros y Hy.
    apply Himp; [left; reflexivity | right; exact Hy | apply Hall, Hy].
Qed.

(** ** Windowing: loadScans *)






(** ** Ticker aggregation: getTopTickers *)

Lemma Zor_Some (v : Z) : Zor (Some v) 0 = v.
Proof. unfold Zor. destruct (Z.eqb_spec v 0); congruence. Qed.

Lemma count_of_add_count (counts : obj Z) (k k' : string) (n : Z) :
  count_of (add_count counts k n) k' =
  count_of counts k' + (if String.eqb k k' then n else 0).
Proof.
  unfold count_of, add_count. rewrite get_set.
  destruct (String.eqb_spec k k') as [ -> |Hk].
  - apply Zor_Some.
  - lia.
Qed.

Lemma total_app (k : string) (l1 l2 : list (string * Z)) :
  total k (l1 ++ l2) = total k l1 + total k l2.
Proof. induction l1 as [|tc l1 IH]; simpl; [reflexivity | rewrite IH; lia]. Qed.

Lemma count_of_add_tickers (counts : obj Z) (pairs : list (string * Z)) (k : string) :
  count_of (add_tickers counts pairs) k = count_of counts k + total k pairs.
Proof.
  unfold add_tickers. revert counts.
  induction pairs as [|tc pairs IH]; intros counts; simpl.
  - lia.
  - rewrite IH, count_of_add_count. lia.
Qed.



(** The keys of the counting object are the cleaned symbols seen. *)
Lemma keys_add_count (counts : obj Z) (k k' : string) (n : Z) :
  In k' (map fst (add_count counts k n)) <-> In k' (map fst counts) \/ k' = k.
Proof.
  unfold add_count. rewrite keys_set. destruct (JS.get counts k) eqn:E.
  - split; [auto | intros [H| ->]; [exact H |]].
    apply get_In in E. apply (in_map fst _ _ E).
  - rewrite in_app_iff. simpl. intuition congruence.
Qed.

Lemma seen_app (k : string) (l1 l2 : list (string * Z)) :
  seen k (l1 ++ l2) <-> seen k l1 \/ seen k l2.
Proof.
  unfold seen. split.
  - intros [tc [H E]]. apply in_app_iff in H. destruct H; [left | right]; eauto.
  - intros [[tc [H E]]|[tc [H E]]]; exists tc; rewrite in_app_iff; auto.
Qed.

Lemma keys_add_tickers (counts : obj Z) (pairs : list (string * Z)) (k : string) :
  In k (map fst (add_tickers counts pairs)) <-> In k (map fst counts) \/ seen k pairs.
Proof.
  unfold add_tickers. revert counts.
  induction pairs as [|tc pairs IH]; intros counts; simpl.
  - unfold seen. split; [auto | intros [H|[tc [[] _]]]; exact H].
  - rewrite IH, keys_add_count. change (tc :: pairs) with ([tc] ++ pairs).
    rewrite seen_app. unfold seen at 2. simpl. split.
    + intros [[H| ->]|H]; auto. right; left. exists tc. auto.
    + intros [H|[[tc' [[ <- |[]] E]]|H]]; auto.
Qed.














Lemma NoDup_firstn {A} (n : nat) (l : list A) : NoDup l -> NoDup (firstn n l).
Proof.
  intros H. revert n. induction H as [|x l Hx H IH]; intros [|n]; simpl;
    try constructor.
  - intros Hin. apply Hx. apply (In_slice0 n l x Hin).
  - apply IH.
Qed.


(** ** Commodity aggregation: getCommodities *)

Lemma add_commodities_keywords (commodities : obj Z) (a b : Snapshot) :
  same_keywords a b -> add_commodities commodities a = add_commodities commodities b.
Proof.
  intros [Hm Hc]. unfold add_commodities. cbv zeta. rewrite Hm, Hc. reflexivity.
Qed.

Lemma fold_commodities_keywords (l1 l2 : list Snapshot) :
  Forall2 same_keywords l1 l2 ->
  forall commodities,
    fold_left add_commodities l1 commodities = fold_left add_commodities l2 commodities.
Proof.
  induction 1 as [|a b l1 l2 Hab _ IH]; intros commodities; simpl.
  - reflexivity.
  - rewrite (add_commodities_keywords commodities a b Hab). apply IH.
Qed.

(** C10. The result of [getCommodities] does not depend on
    [byCategory]: two snapshot sets of the same length whose snapshots
    agree, one by one, on [macroKeywords] and [commodityKeywords] give
    the same ranking, whatever their [byCategory] (and other) fields. *)
Theorem getCommodities_ignores_byCategory (l1 l2 : list Snapshot) :
  Forall2 same_keywords l1 l2 -> getCommodities l1 = getCommodities l2.
Proof.
  intros H. unfold getCommodities. cbv zeta.
  rewrite (fold_commodities_keywords l1 l2 H). reflexivity.
Qed.

Lemma getCommodities_ignores_byCategory_witness :
  Forall2 same_keywords [gold_scan None; gold_scan (Some JNull)]
                        [gold_scan metals_category; gold_scan (Some (JNum 7%float))]
  /\ getCommodities [gold_scan None; gold_scan (Some JNull)] =
     getCommodities [gold_scan metals_category; gold_scan (Some (JNum 7%float))]
  /\ getCommodities [gold_scan metals_category; gold_scan (Some (JNum 7%float))] =
     [ {| name := "gold"; mentions := 14 |}; {| name := "wheat"; mentions := 4 |};
       {| name := "oil"; mentions := 2 |} ].
Proof.
  assert (H : Forall2 same_keywords [gold_scan None; gold_scan (Some JNull)]
                [gold_scan metals_category; gold_scan (Some (JNum 7%float))]).
  { repeat constructor. }
  split; [exact H | split].
  - exact (getCommodities_ignores_byCategory _ _ H).
  - vm_compute. reflexivity.
Defined.

(** ** Fear classifier: getFearLevel *)

(** The mentions of the first entry named [gold], if any. *)
Lemma goldMentions_find (commodities : list Mention) :
  goldMentions commodities =
  match List.find (fun c => String.eqb (name c) "gold") commodities with
  | Some c => mentions c
  | None => 0
  end.
Proof.
  unfold goldMentions, JS.find.
  destruct (List.find _ commodities); simpl; [apply Zor_Some | reflexivity].
Qed.

(** C8. For every commodities ranking and scan count, the gold mentions
    are those of the first entry named gold (0 without one), the rate is
    the gold mentions divided by the scan count when the count is positive
    and 0 otherwise, and the level is EXTREME from 5, HIGH from 3,
    ELEVATED from 1.5 and NORMAL below; 15 gold mentions over 5 scans
    give the rate 3 and the level HIGH. *)
Theorem getFearLevel_spec (commodities : list Mention) (scanCount : Z) :
  goldMentions commodities =
    match List.find (fun c => String.eqb (name c) "gold") commodities with
    | Some c => mentions c
    | None => 0
    end
  /\ (0 < scanCount ->
     perScan commodities scanCount =
     (Z2F (goldMentions commodities) / Z2F scanCount)%float)
  /\ (scanCount <= 0 -> perScan commodities scanCount = 0%float)
  /\ Fear.level (getFearLevel commodities scanCount) =
       fear_of_rate (perScan commodities scanCount)
  /\ perScan [{| name := "gold"; mentions := 15 |}] 5 = 3%float
  /\ Fear.level (getFearLevel [{| name := "gold"; mentions := 15 |}] 5) = "HIGH".
Proof.
  refine (conj (goldMentions_find commodities)
            (conj _ (conj _ (conj _ (conj eq_refl eq_refl))))).
  - intros H. unfold perScan. apply Z.ltb_lt in H. rewrite H. reflexivity.
  - intros H. unfold perScan. destruct (Z.ltb_spec 0 scanCount); [lia | reflexivity].
  - unfold getFearLevel, fear_of_rate. cbv zeta.
    destruct (geb _ 5%float); [reflexivity |].
    destruct (geb _ 3%float); [reflexivity |].
    destruct (geb _ 1.5%float); reflexivity.
Qed.

(** ** Narrative: generateNarrative *)

















(** ** Numbers *)

(** Zero divided by any number, be it [NaN], is not positive. *)
Lemma zero_div_not_positive (d : number) : gtb (0 / d)%float 0%float = false.
Proof.
  unfold gtb. rewrite ltb_spec, div_spec.
  change (Prim2SF 0%float) with (S754_zero false).
  destruct (Prim2SF d) as [s|s| |s m e]; reflexivity.
Qed.

(** ** Sentiment: analyzeSentiment, and the regime of its ratio *)

Lemma reduce_sum_zero (f : Snapshot -> number) (scans : list Snapshot) :
  Forall (fun d => f d = 0%float) scans -> reduce_sum f scans = 0%float.
Proof.
  unfold reduce_sum. induction 1 as [|d scans Hd _ IH]; simpl.
  - reflexivity.
  - rewrite Hd. exact IH.
Qed.

(** With no bearish value and a positive mean bullish value, the ratio
    of a non-empty snapshot set is the infinity literal. *)
Theorem ratio_without_bears (scans : list Snapshot) :
  scans <> [] ->
  Forall (fun d => bearish_of d = 0%float) scans ->
  gtb (mean_bullish scans) 0%float = true ->
  ratio (analyzeSentiment scans) = VStr infinity_symbol.
Proof.
  intros Hne Hbear Hbull.
  destruct scans as [|d scans]; [congruence |].
  unfold analyzeSentiment. cbv zeta. simpl ratio.
  rewrite (reduce_sum_zero bearish_of _ Hbear), zero_div_not_positive.
  unfold mean_bullish in Hbull. rewrite Hbull. reflexivity.
Qed.

Lemma ratio_without_bears_witness :
  ratio (analyzeSentiment [bullish_scan; scan_at None; bullish_scan]) =
  VStr infinity_symbol.
Proof.
  apply (ratio_without_bears [bullish_scan; scan_at None; bullish_scan]).
  - discriminate.
  - repeat constructor.
  - vm_compute. reflexivity.
Defined.

(** [getRegimeLabel] reads the infinity literal as [NaN], which is below
    every threshold for the comparisons of the source. *)
Lemma regime_of_infinity_symbol :
  PrimFloat.is_nan (parseFloat (VStr infinity_symbol)) = true
  /\ Regime.label (getRegimeLabel (VStr infinity_symbol)) = "BEARISH".
Proof. split; vm_compute; reflexivity. Qed.

(** C1, on the code.  One scan, 50% bullish and 0% bearish: the ratio
    is the infinity literal, and the regime [getRegimeLabel] gives it is
    BEARISH, not EUPHORIA: [parseFloat] of the literal is [NaN], which
    fails every threshold. *)
Theorem infinite_ratio_regime :
  bearish_of bullish_scan = 0%float
  /\ gtb (mean_bullish [bullish_scan]) 0%float = true
  /\ ratio (analyzeSentiment [bullish_scan]) = VStr infinity_symbol
  /\ Regime.label (getRegimeLabel (ratio (analyzeSentiment [bullish_scan]))) = "BEARISH"
  /\ Regime.label (getRegimeLabel (ratio (analyzeSentiment [bullish_scan]))) <> "EUPHORIA".
Proof.
  assert (H : Regime.label (getRegimeLabel (ratio (analyzeSentiment [bullish_scan])))
              = "BEARISH") by (vm_compute; reflexivity).
  repeat split; try (vm_compute; reflexivity).
  rewrite H. discriminate.
Qed.

(** C3, as stated, fails: for the empty sequence the ratio is the number
    0, not the string ["0"]. *)
Lemma analyzeSentiment_empty_ratio_is_number :
  ratio (analyzeSentiment []) = VNum 0%float
  /\ ratio (analyzeSentiment []) <> VStr "0".
Proof. split; [reflexivity | discriminate]. Qed.

(** C3, amended.  For the empty sequence, [analyzeSentiment] returns the
    numbers 0 for [bull], [bear] and [ratio] (the ratio prints as [0]),
    and the trend UNKNOWN. *)
Theorem analyzeSentiment_empty :
  analyzeSentiment [] =
    {| bull := VNum 0%float; bear := VNum 0%float; ratio := VNum 0%float;
       trend := "UNKNOWN" |}
  /\ ToString (ratio (analyzeSentiment [])) = "0".
Proof. split; [reflexivity | vm_compute; reflexivity]. Qed.

(** ** Momentum: getMomentum *)

(** C4. With fewer than 40 scans in the history, or fewer than 10 in the
    recent window, [getMomentum] returns the empty array, as a normal
    result, whatever the scans hold. *)
Theorem getMomentum_insufficient (allScans recentScans : list Snapshot) :
  (List.length allScans < 40)%nat \/ (List.length recentScans < 10)%nat ->
  getMomentum allScans recentScans = Normal [].
Proof.
  intros H. unfold getMomentum.
  destruct (Nat.ltb_spec (List.length allScans) 40) as [Ha|Ha]; [reflexivity |].
  destruct (Nat.ltb_spec (List.length recentScans) 10) as [Hr|Hr]; [reflexivity |].
  lia.
Qed.

Lemma getMomentum_insufficient_witness :
  getMomentum (repeat busy_scan 39) (repeat busy_scan 39) = Normal []
  /\ getMomentum (repeat busy_scan 100) (repeat busy_scan 9) = Normal [].
Proof.
  split.
  - apply (getMomentum_insufficient (repeat busy_scan 39) (repeat busy_scan 39)).
    left. vm_compute. lia.
  - apply (getMomentum_insufficient (repeat busy_scan 100) (repeat busy_scan 9)).
    right. vm_compute. lia.
Defined.




Lemma momentum_of_ticker (allScans recentScans : list Snapshot)
    (recentTickers priorTickers : obj Z) (t : string) (m : Momentum.t) :
  momentum_of allScans recentScans recentTickers priorTickers t = Some m ->
  Momentum.ticker m = t.
Proof.
  unfold momentum_of. cbv zeta.
  destruct (_ <? 5); [discriminate |].
  destruct (gtb _ 0%float).
  - destruct (gtb _ 30%float); [intros [= <-]; reflexivity | discriminate].
  - destruct (3 <=? _); [intros [= <-]; reflexivity | discriminate].
Qed.

Lemma pushResults_In (allScans recentScans : list Snapshot)
    (recentTickers priorTickers : obj Z) (tickers : list string) (m : Momentum.t) :
  In m (pushResults allScans recentScans recentTickers priorTickers tickers) <->
  exists t, In t tickers /\
            momentum_of allScans recentScans recentTickers priorTickers t = Some m.
Proof.
  induction tickers as [|t tickers IH]; simpl.
  - split; [intros [] | intros [t [[] _]]].
  - destruct (momentum_of allScans recentScans recentTickers priorTickers t)
      as [m'|] eqn:E; simpl; rewrite IH; split.
    + intros [ <- |[t' [H1 H2]]]; [exists t; auto | exists t'; auto].
    + intros [t' [[ <- |H1] H2]]; [left; congruence | right; exists t'; auto].
    + intros [t' [H1 H2]]. exists t'; auto.
    + intros [t' [[ <- |H1] H2]]; [congruence | exists t'; auto].
Qed.












(** ** The history: loadAllScans, and loadScans as a filter of it *)

Section FilterSort.
Context {A : Type} (comparefn : A -> A -> comparison) (key : A -> Z) (p : A -> bool).



End FilterSort.







(** ** The data directory: getDataDir, and the loaders on a file system *)







(** ** Sentiment without signal, and the order of the tiers *)

Lemma null_zero_div (d : number) : null (0 / d)%float.
Proof.
  unfold null. rewrite div_spec. change (Prim2SF 0%float) with (S754_zero false).
  destruct (Prim2SF d) as [s|s| |s m e]; exact I.
Qed.

Lemma null_mul (x c : number) :
  (exists s m e, Prim2SF c = S754_finite s m e) -> null x -> null (x * c)%float.
Proof.
  intros [s [m [e Hc]]]. unfold null. rewrite mul_spec, Hc.
  destruct (Prim2SF x) as [sx|sx| |sx mx ex]; simpl; tauto.
Qed.

Lemma null_not_less (x y : number) : null x -> null y -> PrimFloat.ltb x y = false.
Proof.
  unfold null. rewrite ltb_spec.
  destruct (Prim2SF x) as [sx|sx| |sx mx ex], (Prim2SF y) as [sy|sy| |sy my ey];
    try tauto; reflexivity.
Qed.

Lemma Forall_slice0 {A} (P : A -> Prop) n (l : list A) :
  Forall P l -> Forall P (slice0 n l).
Proof.
  intros H. apply Forall_forall. intros x Hx. rewrite Forall_forall in H.
  apply H, (In_slice0 n l x Hx).
Qed.

Lemma Forall_slice_from {A} (P : A -> Prop) n (l : list A) :
  Forall P l -> Forall P (slice_from n l).
Proof.
  intros H. apply Forall_forall. intros x Hx. rewrite Forall_forall in H.
  apply H. unfold slice_from in Hx. rewrite <- (firstn_skipn n l).
  apply in_app_iff. auto.
Qed.

(** Scans that carry no sentiment (both values 0 or absent) give the
    ratio ["0"], not the infinity literal, a STABLE trend, and so the
    BEARISH regime. *)
Theorem analyzeSentiment_no_sentiment (scans : list Snapshot) :
  scans <> [] ->
  Forall no_sentiment scans ->
  ratio (analyzeSentiment scans) = VStr "0"
  /\ trend (analyzeSentiment scans) = "STABLE"
  /\ Regime.label (getRegimeLabel (ratio (analyzeSentiment scans))) = "BEARISH".
Proof.
  intros Hne Hall.
  assert (Hb : forall l, Forall no_sentiment l -> reduce_sum bullish_of l = 0%float).
  { intros l Hl. apply reduce_sum_zero. eapply Forall_impl; [| exact Hl].
    intros d [H _]; exact H. }
  assert (Hr : forall l, Forall no_sentiment l -> reduce_sum bearish_of l = 0%float).
  { intros l Hl. apply reduce_sum_zero. eapply Forall_impl; [| exact Hl].
    intros d [_ H]; exact H. }
  assert (E : ratio (analyzeSentiment scans) = VStr "0").
  { destruct scans as [|d scans]; [congruence |].
    unfold analyzeSentiment. cbv zeta. simpl ratio.
    rewrite (Hb _ Hall), (Hr _ Hall), !zero_div_not_positive. reflexivity. }
  split; [exact E | split; [| rewrite E; vm_compute; reflexivity]].
  destruct scans as [|d scans]; [congruence |].
  unfold analyzeSentiment. cbv zeta. simpl trend.
  rewrite (Hb _ (Forall_slice0 _ _ _ Hall)), (Hb _ (Forall_slice_from _ _ _ Hall)).
  unfold gtb. rewrite !null_not_less; try apply null_zero_div; try reflexivity.
  - apply null_mul; [| apply null_zero_div]. vm_compute. eauto.
  - apply null_mul; [| apply null_zero_div]. vm_compute. eauto.
Qed.

Lemma analyzeSentiment_no_sentiment_witness :
  ratio (analyzeSentiment [scan_at None; quiet_scan 0]) = VStr "0"
  /\ trend (analyzeSentiment [scan_at None; quiet_scan 0]) = "STABLE"
  /\ Regime.label (getRegimeLabel (ratio (analyzeSentiment [scan_at None; quiet_scan 0])))
     = "BEARISH".
Proof.
  apply (analyzeSentiment_no_sentiment [scan_at None; quiet_scan 0]).
  - discriminate.
  - repeat constructor.
Defined.

Lemma SFleb_trans (x y z : spec_float) :
  SFleb x y = true -> SFleb y z = true -> SFleb x z = true.
Proof.
  unfold SFleb, SFcompare.
  destruct x as [[]|[]| |[] mx ex], y as [[]|[]| |[] my ey], z as [[]|[]| |[] mz ez];
    try discriminate; try reflexivity;
    change (Pos.compare_cont Eq) with Pos.compare;
    repeat match goal with
           | |- context [Z.compare ?a ?b] => destruct (Z.compare_spec a b)
           | |- context [Pos.compare ?a ?b] => destruct (Pos.compare_spec a b)
           end; simpl; try discriminate; try reflexivity; subst; intros; exfalso; lia.
Qed.

(** A threshold a number reaches is reached by every number above it. *)
Lemma geb_upward (x y c : number) :
  PrimFloat.leb x y = true -> geb x c = true -> geb y c = true.
Proof.
  unfold geb. rewrite !leb_spec. intros H1 H2. exact (SFleb_trans _ _ _ H2 H1).
Qed.

(** A ratio that reads as a larger number never gets a lower tier. *)
Theorem getRegimeLabel_monotone (r1 r2 : value) :
  PrimFloat.leb (parseFloat r1) (parseFloat r2) = true ->
  (regime_rank (Regime.label (getRegimeLabel r1))
   <= regime_rank (Regime.label (getRegimeLabel r2)))%nat.
Proof.
  intros H. unfold getRegimeLabel. cbv zeta.
  pose proof (geb_upward _ _ 5%float H) as H5.
  pose proof (geb_upward _ _ 3%float H) as H3.
  pose proof (geb_upward _ _ 1.5%float H) as H15.
  pose proof (geb_upward _ _ 0.67%float H) as H67.
  pose proof (geb_upward _ _ 0.33%float H) as H33.
  destruct (geb (parseFloat r1) 5%float); [rewrite (H5 eq_refl); vm_compute; lia |].
  destruct (geb (parseFloat r1) 3%float).
  { rewrite (H3 eq_refl). destruct (geb (parseFloat r2) 5%float); vm_compute; lia. }
  destruct (geb (parseFloat r1) 1.5%float).
  { rewrite (H15 eq_refl).
    destruct (geb (parseFloat r2) 5%float), (geb (parseFloat r2) 3%float);
      vm_compute; lia. }
  destruct (geb (parseFloat r1) 0.67%float).
  { rewrite (H67 eq_refl).
    destruct (geb (parseFloat r2) 5%float), (geb (parseFloat r2) 3%float),
      (geb (parseFloat r2) 1.5%float); vm_compute; lia. }
  destruct (geb (parseFloat r1) 0.33%float).
  { rewrite (H33 eq_refl).
    destruct (geb (parseFloat r2) 5%float), (geb (parseFloat r2) 3%float),
      (geb (parseFloat r2) 1.5%float), (geb (parseFloat r2) 0.67%float);
      vm_compute; lia. }
  exact (Nat.le_0_l _).
Qed.

Lemma getRegimeLabel_monotone_witness :
  (regime_rank (Regime.label (getRegimeLabel (VStr "1.20")))
   <= regime_rank (Regime.label (getRegimeLabel (VStr "4.00"))))%nat
  /\ Regime.label (getRegimeLabel (VStr "1.20")) = "NEUTRAL"
  /\ Regime.label (getRegimeLabel (VStr "4.00")) = "BULLISH".
Proof.
  split.
  - apply (getRegimeLabel_monotone (VStr "1.20") (VStr "4.00")).
    vm_compute. reflexivity.
  - split; vm_compute; reflexivity.
Defined.

(** More gold mentions per scan never lower the fear level. *)
Theorem getFearLevel_monotone (c1 c2 : list Mention) (n1 n2 : Z) :
  PrimFloat.leb (perScan c1 n1) (perScan c2 n2) = true ->
  (fear_rank (Fear.level (getFearLevel c1 n1))
   <= fear_rank (Fear.level (getFearLevel c2 n2)))%nat.
Proof.
  intros H. unfold getFearLevel. cbv zeta.
  pose proof (geb_upward _ _ 5%float H) as H5.
  pose proof (geb_upward _ _ 3%float H) as H3.
  pose proof (geb_upward _ _ 1.5%float H) as H15.
  destruct (geb (perScan c1 n1) 5%float); [rewrite (H5 eq_refl); vm_compute; lia |].
  destruct (geb (perScan c1 n1) 3%float).
  { rewrite (H3 eq_refl). destruct (geb (perScan c2 n2) 5%float); vm_compute; lia. }
  destruct (geb (perScan c1 n1) 1.5%float).
  { rewrite (H15 eq_refl).
    destruct (geb (perScan c2 n2) 5%float), (geb (perScan c2 n2) 3%float);
      vm_compute; lia. }
  exact (Nat.le_0_l _).
Qed.

Lemma getFearLevel_monotone_witness :
  (fear_rank (Fear.level (getFearLevel [ {| name := "gold"; mentions := 2 |} ] 1))
   <= fear_rank (Fear.level (getFearLevel [ {| name := "gold"; mentions := 7 |} ] 2)))%nat
  /\ Fear.level (getFearLevel [ {| name := "gold"; mentions := 2 |} ] 1) = "ELEVATED"
  /\ Fear.level (getFearLevel [ {| name := "gold"; mentions := 7 |} ] 2) = "HIGH".
Proof.
  split.
  - apply (getFearLevel_monotone [ {| name := "gold"; mentions := 2 |} ]
             [ {| name := "gold"; mentions := 7 |} ] 1 2).
    vm_compute. reflexivity.
  - split; vm_compute; reflexivity.
Defined.

(** ** Commodities: what getCommodities returns *)

Lemma keyword_total_app k l1 l2 :
  keyword_total k (l1 ++ l2) = keyword_total k l1 + keyword_total k l2.
Proof. induction l1 as [|e l1 IH]; simpl; [reflexivity | rewrite IH; lia]. Qed.

Lemma keyword_total_perm k l1 l2 :
  Permutation l1 l2 -> keyword_total k l1 = keyword_total k l2.
Proof. induction 1; simpl; lia. Qed.

Lemma mentioned_app k l1 l2 :
  mentioned k (l1 ++ l2) <-> mentioned k l1 \/ mentioned k l2.
Proof.
  unfold mentioned. split.
  - intros [e [H E]]. apply in_app_iff in H. destruct H; [left | right]; eauto.
  - intros [[e [H E]]|[e [H E]]]; exists e; rewrite in_app_iff; auto.
Qed.

Lemma mentioned_perm k l1 l2 :
  Permutation l1 l2 -> mentioned k l1 <-> mentioned k l2.
Proof.
  intros P. unfold mentioned. split; intros [e [H E]]; exists e; split; auto.
  - apply (Permutation_in _ P H).
  - apply (Permutation_in _ (Permutation_sym P) H).
Qed.

Lemma mentioned_existsb k l :
  mentioned k l -> existsb (fun e : string * Z => String.eqb (fst e) k) l = true.
Proof.
  intros [e [H E]]. apply existsb_exists. exists e. split; [exact H |].
  apply String.eqb_eq, E.
Qed.

Lemma count_of_add_entries keep counts entries k :
  count_of (add_entries keep counts entries) k =
  count_of counts k + keyword_total k (filter keep entries).
Proof.
  unfold add_entries. revert counts.
  induction entries as [|e entries IH]; intros counts; simpl; [lia |].
  rewrite IH. destruct (keep e); simpl; [rewrite count_of_add_count |]; lia.
Qed.

Lemma keys_add_entries keep counts entries k :
  In k (map fst (add_entries keep counts entries)) <->
  In k (map fst counts) \/ mentioned k (filter keep entries).
Proof.
  unfold add_entries. revert counts.
  induction entries as [|e entries IH]; intros counts; simpl.
  - unfold mentioned. split; [auto | intros [H|[e [[] _]]]; exact H].
  - rewrite IH. destruct (keep e); simpl.
    + rewrite keys_add_count.
      change (e :: filter keep entries) with ([e] ++ filter keep entries).
      rewrite mentioned_app. unfold mentioned at 2. simpl. split.
      * intros [[H| ->]|H]; auto. right; left. exists e. auto.
      * intros [H|[[e' [[ <- |[]] E]]|H]]; auto.
    + tauto.
Qed.

Lemma NoDup_add_entries keep counts entries :
  NoDup (map fst counts) -> NoDup (map fst (add_entries keep counts entries)).
Proof.
  unfold add_entries. revert counts.
  induction entries as [|e entries IH]; intros counts Hnd; simpl; [exact Hnd |].
  apply IH. destruct (keep e); [apply NoDup_set, Hnd | exact Hnd].
Qed.

Lemma filter_keep_all (l : list (string * Z)) : filter keep_all l = l.
Proof. induction l as [|e l IH]; simpl; [reflexivity | rewrite IH; reflexivity]. Qed.

(** The two loops of one scan are two folds of [add_count]. *)
Lemma add_commodities_entries commodities scan :
  add_commodities commodities scan =
  add_entries keep_all
    (add_entries allowed commodities
       (Object_entries (keywords_or_empty (macroKeywords scan))))
    (Object_entries (keywords_or_empty (commodityKeywords scan))).
Proof. reflexivity. Qed.

Lemma filter_perm {A} (p : A -> bool) (l1 l2 : list A) :
  Permutation l1 l2 -> Permutation (filter p l1) (filter p l2).
Proof.
  induction 1 as [| x l1 l2 _ IH | x y l | l1 l2 l3 _ IH1 _ IH2]; simpl.
  - constructor.
  - destruct (p x); [apply perm_skip |]; exact IH.
  - destruct (p x), (p y); try apply Permutation_refl. apply perm_swap.
  - eapply perm_trans; eassumption.
Qed.

Lemma contributions_perm scan :
  Permutation
    (filter allowed (Object_entries (keywords_or_empty (macroKeywords scan)))
     ++ filter keep_all (Object_entries (keywords_or_empty (commodityKeywords scan))))
    (contributions scan).
Proof.
  unfold contributions. rewrite filter_keep_all.
  apply Permutation_app; [apply filter_perm |]; apply entries_perm.
Qed.

Lemma count_of_add_commodities commodities scan k :
  count_of (add_commodities commodities scan) k =
  count_of commodities k + keyword_total k (contributions scan).
Proof.
  rewrite add_commodities_entries, !count_of_add_entries.
  rewrite <- (keyword_total_perm k _ _ (contributions_perm scan)), keyword_total_app.
  lia.
Qed.

Lemma keys_add_commodities commodities scan k :
  In k (map fst (add_commodities commodities scan)) <->
  In k (map fst commodities) \/ mentioned k (contributions scan).
Proof.
  rewrite add_commodities_entries, !keys_add_entries.
  rewrite <- (mentioned_perm k _ _ (contributions_perm scan)), mentioned_app. tauto.
Qed.

Lemma NoDup_add_commodities commodities scan :
  NoDup (map fst commodities) -> NoDup (map fst (add_commodities commodities scan)).
Proof.
  intros H. rewrite add_commodities_entries.
  apply NoDup_add_entries, NoDup_add_entries, H.
Qed.

Lemma commodity_counts_from commodities scans k :
  count_of (fold_left add_commodities scans commodities) k =
  count_of commodities k + keyword_total k (all_contributions scans)
  /\ (In k (map fst (fold_left add_commodities scans commodities)) <->
      In k (map fst commodities) \/ mentioned k (all_contributions scans))
  /\ (NoDup (map fst commodities) ->
      NoDup (map fst (fold_left add_commodities scans commodities))).
Proof.
  revert commodities. induction scans as [|scan scans IH]; intros commodities; simpl.
  - split; [lia | split; [| auto]].
    unfold mentioned. split; [auto | intros [H|[e [[] _]]]; exact H].
  - destruct (IH (add_commodities commodities scan)) as [H1 [H2 H3]].
    split; [| split].
    + rewrite H1, count_of_add_commodities, keyword_total_app. lia.
    + rewrite H2, keys_add_commodities, mentioned_app. tauto.
    + intros Hnd. apply H3, NoDup_add_commodities, Hnd.
Qed.

Lemma commodity_counts_entry scans (e : string * Z) :
  In e (commodity_counts scans) <->
  mentioned (fst e) (all_contributions scans)
  /\ snd e = keyword_total (fst e) (all_contributions scans).
Proof.
  unfold commodity_counts.
  destruct (commodity_counts_from JS.empty scans (fst e)) as [Hc [Hk Hn]].
  specialize (Hn (NoDup_nil _)). destruct e as [k v]. simpl in *. split.
  - intros Hin. split.
    + assert (Hkin : In k (map fst (fold_left add_commodities scans JS.empty)))
        by apply (in_map fst _ _ Hin).
      apply Hk in Hkin. destruct Hkin as [[]|H]; exact H.
    + change (keyword_total k (all_contributions scans))
        with (count_of JS.empty k + keyword_total k (all_contributions scans)).
      rewrite <- Hc. unfold count_of. rewrite (In_get _ _ _ Hn Hin).
      symmetry. apply Zor_Some.
  - intros [Hm ->].
    assert (Hkin : In k (map fst (fold_left add_commodities scans JS.empty)))
      by (apply Hk; right; exact Hm).
    destruct (JS.get (fold_left add_commodities scans JS.empty) k) as [v|] eqn:E.
    + change (keyword_total k (all_contributions scans))
        with (count_of JS.empty k + keyword_total k (all_contributions scans)).
      rewrite <- Hc. unfold count_of. rewrite E, Zor_Some. apply get_In, E.
    + exfalso. exact (get_None _ _ E Hkin).
Qed.

Lemma getCommodities_In scans (e : Mention) :
  In e (getCommodities scans) <->
  mentioned (name e) (all_contributions scans)
  /\ mentions e = keyword_total (name e) (all_contributions scans).
Proof.
  unfold getCommodities. cbv zeta. rewrite in_map_iff. split.
  - intros [p [<- Hp]].
    apply (proj1 (sort_In _ _ _)), (proj1 (entries_In _ _)) in Hp.
    apply (proj1 (commodity_counts_entry _ _)) in Hp. exact Hp.
  - intros H. exists (name e, mentions e). split; [destruct e; reflexivity |].
    apply (proj2 (sort_In _ _ _)), (proj2 (entries_In _ _)).
    apply (proj2 (commodity_counts_entry _ _)). exact H.
Qed.





Lemma zero_div_below (d c : number) :
  PrimFloat.ltb 0%float c = true -> geb (0 / d)%float c = false.
Proof.
  unfold geb. rewrite ltb_spec, leb_spec, div_spec.
  change (Prim2SF 0%float) with (S754_zero false).
  destruct (Prim2SF c) as [sc|sc| |sc mc ec], (Prim2SF d) as [s|s| |s m e];
    try discriminate; try reflexivity; destruct sc; try discriminate; reflexivity.
Qed.

Lemma fear_of_no_gold (commodities : list Mention) (scanCount : Z) :
  goldMentions commodities = 0 ->
  Fear.level (getFearLevel commodities scanCount) = "NORMAL".
Proof.
  intros Hg. unfold getFearLevel, perScan. rewrite Hg.
  destruct (0 <? scanCount); [| reflexivity].
  change (Z2F 0) with 0%float.
  rewrite !zero_div_below by reflexivity. reflexivity.
Qed.

(** The fear gauge reads gold only: when no scan contributes the keyword
    [gold], the level of the commodities of the scans is NORMAL, whatever
    the other commodities and whatever scan count it is given. *)
Theorem fear_without_gold (scans : list Snapshot) (scanCount : Z) :
  ~ mentioned "gold" (all_contributions scans) ->
  Fear.level (getFearLevel (getCommodities scans) scanCount) = "NORMAL".
Proof.
  intros Hno. apply fear_of_no_gold. rewrite goldMentions_find.
  destruct (List.find _ (getCommodities scans)) as [c|] eqn:E; [| reflexivity].
  apply find_some in E. destruct E as [Hin Hname]. apply String.eqb_eq in Hname.
  apply getCommodities_In in Hin. rewrite Hname in Hin. destruct Hin as [Hm _].
  contradiction.
Qed.

Lemma fear_without_gold_witness :
  Fear.level (getFearLevel (getCommodities [oil_scan; scan_at None; oil_scan]) 3)
  = "NORMAL"
  /\ getCommodities [oil_scan; scan_at None; oil_scan] =
     [ {| name := "oil"; mentions := 80 |}; {| name := "wheat"; mentions := 40 |} ].
Proof.
  split.
  - apply (fear_without_gold [oil_scan; scan_at None; oil_scan] 3).
    intros H. apply mentioned_existsb in H. vm_compute in H. discriminate.
  - vm_compute. reflexivity.
Defined.

(** ** Momentum: the two buckets, and the shape of the result *)

Lemma bucket_scan_counts recentStart (b : obj Z * obj Z) scan k :
  count_of (fst (bucket_scan recentStart b scan)) k
  + count_of (snd (bucket_scan recentStart b scan)) k =
  count_of (fst b) k + count_of (snd b) k + total k (tickers_of scan).
Proof.
  destruct b as [r p]. unfold bucket_scan.
  destruct (at_or_after (timestamp scan) recentStart); simpl;
    rewrite count_of_add_tickers; lia.
Qed.

Lemma buckets_counts_from recentStart allScans (b : obj Z * obj Z) k :
  count_of (fst (fold_left (bucket_scan recentStart) allScans b)) k
  + count_of (snd (fold_left (bucket_scan recentStart) allScans b)) k =
  count_of (fst b) k + count_of (snd b) k + total k (all_tickers allScans).
Proof.
  revert b. induction allScans as [|scan allScans IH]; intros b; simpl.
  - lia.
  - rewrite IH, bucket_scan_counts, total_app. lia.
Qed.

Lemma bucket_scan_keys recentStart (b : obj Z * obj Z) scan k :
  In k (map fst (fst (bucket_scan recentStart b scan)))
  \/ In k (map fst (snd (bucket_scan recentStart b scan))) <->
  (In k (map fst (fst b)) \/ In k (map fst (snd b))) \/ seen k (tickers_of scan).
Proof.
  destruct b as [r p]. unfold bucket_scan.
  destruct (at_or_after (timestamp scan) recentStart); simpl;
    rewrite keys_add_tickers; tauto.
Qed.

Lemma buckets_keys_from recentStart allScans (b : obj Z * obj Z) k :
  In k (map fst (fst (fold_left (bucket_scan recentStart) allScans b)))
  \/ In k (map fst (snd (fold_left (bucket_scan recentStart) allScans b))) <->
  (In k (map fst (fst b)) \/ In k (map fst (snd b))) \/ seen k (all_tickers allScans).
Proof.
  revert b. induction allScans as [|scan allScans IH]; intros b; simpl.
  - unfold seen. split; [auto | intros [H|[tc [[] _]]]; exact H].
  - rewrite IH, bucket_scan_keys, seen_app. tauto.
Qed.

Lemma Set_of_NoDup (keys : list string) : NoDup (Set_of keys).
Proof.
  induction keys as [|k keys IH]; simpl; constructor.
  - intros H. apply filter_In in H. destruct H as [_ H].
    rewrite String.eqb_refl in H. discriminate.
  - apply NoDup_filter, IH.
Qed.

Lemma pushResults_tickers allScans recentScans recentTickers priorTickers tickers :
  NoDup tickers ->
  NoDup (map Momentum.ticker
           (pushResults allScans recentScans recentTickers priorTickers tickers)).
Proof.
  induction 1 as [|t tickers Ht Hnd IH]; simpl; [constructor |].
  destruct (momentum_of allScans recentScans recentTickers priorTickers t) as [m|] eqn:E;
    [| exact IH].
  simpl. constructor; [| exact IH].
  rewrite (momentum_of_ticker _ _ _ _ _ _ E).
  intros Hin. apply in_map_iff in Hin. destruct Hin as [m' [Hm' Hin]].
  apply pushResults_In in Hin. destruct Hin as [t' [Ht' E']].
  rewrite (momentum_of_ticker _ _ _ _ _ _ E') in Hm'. subst t'. contradiction.
Qed.

Lemma momentum_of_floor allScans recentScans recentTickers priorTickers t m :
  momentum_of allScans recentScans recentTickers priorTickers t = Some m ->
  5 <= count_of recentTickers t + count_of priorTickers t
  /\ (Momentum.direction m = "up" \/ Momentum.direction m = "down"
      \/ Momentum.direction m = "new").
Proof.
  unfold momentum_of. cbv zeta.
  change (recent_count recentTickers t) with (count_of recentTickers t).
  change (prior_count priorTickers t) with (count_of priorTickers t).
  destruct (Z.ltb_spec (count_of recentTickers t + count_of priorTickers t) 5);
    [discriminate |].
  destruct (gtb _ 0%float).
  - destruct (gtb (PrimFloat.abs _) 30%float); [| discriminate].
    intros [= <-]. split; [assumption |]. simpl.
    destruct (gtb _ 0%float); auto.
  - destruct (3 <=? _); [| discriminate]. intros [= <-]. simpl. auto.
Qed.

Lemma count_positive_seen recentStart allScans k :
  count_of (fst (buckets recentStart allScans)) k
  + count_of (snd (buckets recentStart allScans)) k <> 0 ->
  seen k (all_tickers allScans).
Proof.
  intros H. unfold buckets in *.
  assert (Hk : In k (map fst (fst (fold_left (bucket_scan recentStart) allScans
                                      (JS.empty, JS.empty))))
            \/ In k (map fst (snd (fold_left (bucket_scan recentStart) allScans
                                      (JS.empty, JS.empty))))).
  { unfold count_of in H.
    destruct (JS.get (fst (fold_left (bucket_scan recentStart) allScans
                             (JS.empty, JS.empty))) k) eqn:E1.
    - left. apply get_In in E1. apply (in_map fst _ _ E1).
    - destruct (JS.get (snd (fold_left (bucket_scan recentStart) allScans
                               (JS.empty, JS.empty))) k) eqn:E2.
      + right. apply get_In in E2. apply (in_map fst _ _ E2).
      + simpl in H. lia. }
  apply buckets_keys_from in Hk. simpl in Hk. tauto.
Qed.


Lemma results_shape allScans first rest m :
  In m (momentum_results allScans (first :: rest) first) ->
  5 <= total (Momentum.ticker m) (all_tickers allScans)
  /\ seen (Momentum.ticker m) (all_tickers allScans)
  /\ (Momentum.direction m = "up" \/ Momentum.direction m = "down"
      \/ Momentum.direction m = "new").
Proof.
  unfold momentum_results. intros Hm.
  pose proof (buckets_counts_from (timestamp first) allScans (JS.empty, JS.empty)
                (Momentum.ticker m)) as Hc.
  pose proof (count_positive_seen (timestamp first) allScans (Momentum.ticker m)) as Hs.
  unfold buckets in *.
  destruct (fold_left (bucket_scan (timestamp first)) allScans (JS.empty, JS.empty))
    as [recentTickers priorTickers].
  apply pushResults_In in Hm. destruct Hm as [t [_ Hof]].
  pose proof (momentum_of_ticker _ _ _ _ _ _ Hof) as Ht. subst t.
  apply momentum_of_floor in Hof. destruct Hof as [Hfloor Hdir].
  simpl in Hc, Hs. change (count_of JS.empty (Momentum.ticker m)) with 0 in Hc.
  split; [lia | split; [apply Hs; lia | exact Hdir]].
Qed.

Lemma results_tickers allScans first rest :
  NoDup (map Momentum.ticker (momentum_results allScans (first :: rest) first)).
Proof.
  unfold momentum_results.
  destruct (buckets (timestamp first) allScans) as [recentTickers priorTickers].
  apply pushResults_tickers, Set_of_NoDup.
Qed.

(** Without a recent scan the guard returns before [recentScans[0]] is
    read. *)
Lemma getMomentum_no_recent (allScans : list Snapshot) :
  getMomentum allScans [] = Normal [].
Proof. unfold getMomentum. rewrite orb_true_r. reflexivity. Qed.


(** [getMomentum] always returns, at most 12 entries, no two of them for
    the same ticker; every ticker in the result occurs in the history,
    with at least 5 mentions in all, and its direction is one of [up],
    [down] and [new]. *)
Theorem getMomentum_shape (allScans recentScans : list Snapshot) :
  exists out,
    getMomentum allScans recentScans = Normal out
    /\ (List.length out <= 12)%nat
    /\ NoDup (map Momentum.ticker out)
    /\ forall m, In m out ->
         5 <= total (Momentum.ticker m) (all_tickers allScans)
         /\ seen (Momentum.ticker m) (all_tickers allScans)
         /\ (Momentum.direction m = "up" \/ Momentum.direction m = "down"
             \/ Momentum.direction m = "new").
Proof.
  unfold getMomentum. destruct recentScans as [|first rest].
  { rewrite orb_true_r. exists []. split; [reflexivity |].
    split; [simpl; lia | split; [constructor | intros m []]]. }
  destruct (_ || _).
  { exists []. split; [reflexivity |].
    split; [simpl; lia | split; [constructor | intros m []]]. }
  eexists. split; [reflexivity |]. split; [apply slice0_length | split].
  - unfold JS.slice0. rewrite <- firstn_map. apply NoDup_firstn.
    apply (Permutation_NoDup (l := map Momentum.ticker
             (momentum_results allScans (first :: rest) first))).
    + apply Permutation_map, Permutation_sym, sort_perm.
    + apply results_tickers.
  - intros m Hm. apply In_slice0 in Hm. apply (proj1 (sort_In _ _ _)) in Hm.
    exact (results_shape _ _ _ _ Hm).
Qed.

(** ** High-engagement posts: getHighEngagement *)

Lemma existsb_eqb_In (u : string) (l : list string) :
  existsb (String.eqb u) l = true <-> In u l.
Proof.
  rewrite existsb_exists. split.
  - intros [x [Hx E]]. apply String.eqb_eq in E. subst x. exact Hx.
  - intros H. exists u. split; [exact H | apply String.eqb_refl].
Qed.

Lemma dedupe_In seen posts p :
  In p (dedupe seen posts) ->
  In p posts /\ exists u, Post.url p = Some u /\ u <> "" /\ ~ In u seen.
Proof.
  revert seen. induction posts as [|q posts IH]; intros seen; simpl; [tauto |].
  destruct (Post.url q) as [u|] eqn:Eu.
  - destruct (String.eqb_spec u "") as [->|Hne]; simpl.
    + intros H. destruct (IH seen H) as [H1 H2]. auto.
    + destruct (existsb (String.eqb u) seen) eqn:Es.
      * intros H. destruct (IH seen H) as [H1 H2]. auto.
      * intros [ <- |H].
        -- split; [auto |]. exists u. split; [exact Eu | split; [exact Hne |]].
           intros Hin. apply existsb_eqb_In in Hin. congruence.
        -- destruct (IH (u :: seen) H) as [H1 [v [Hv [Hv1 Hv2]]]].
           split; [auto |]. exists v. split; [exact Hv | split; [exact Hv1 |]].
           intros Hin. apply Hv2. right; exact Hin.
  - intros H. destruct (IH seen H) as [H1 H2]. auto.
Qed.

Lemma dedupe_urls seen posts : NoDup (map Post.url (dedupe seen posts)).
Proof.
  revert seen. induction posts as [|q posts IH]; intros seen; simpl; [constructor |].
  destruct (Post.url q) as [u|] eqn:Eu; [| apply IH].
  destruct (String.eqb u "" || existsb (String.eqb u) seen); [apply IH |].
  simpl. constructor; [| apply IH].
  rewrite Eu. intros Hin. apply in_map_iff in Hin. destruct Hin as [p [Hp Hin]].
  apply dedupe_In in Hin. destruct Hin as [_ [v [Hv [_ Hnot]]]].
  apply Hnot. left. congruence.
Qed.

(** The post kept for a URL is the first one that has it. *)
Lemma dedupe_first seen posts p u :
  In p (dedupe seen posts) -> Post.url p = Some u ->
  List.find (has_url u) posts = Some p.
Proof.
  revert seen. induction posts as [|q posts IH]; intros seen; simpl; [tauto |].
  intros Hin Hu. unfold has_url at 1.
  destruct (Post.url q) as [v|] eqn:Ev.
  - destruct (String.eqb_spec v "") as [->|Hne]; simpl in Hin.
    + destruct (dedupe_In _ _ _ Hin) as [_ [w [Hw [Hw1 _]]]].
      destruct (String.eqb_spec "" u) as [<-|_]; [congruence | exact (IH seen Hin Hu)].
    + destruct (existsb (String.eqb v) seen) eqn:Es.
      * destruct (dedupe_In _ _ _ Hin) as [_ [w [Hw [_ Hw2]]]].
        destruct (String.eqb_spec v u) as [->|_]; [| exact (IH seen Hin Hu)].
        exfalso. apply Hw2. apply existsb_eqb_In in Es. congruence.
      * destruct Hin as [ <- |Hin].
        -- assert (v = u) by congruence. subst v. rewrite String.eqb_refl. reflexivity.
        -- destruct (dedupe_In _ _ _ Hin) as [_ [w [Hw [_ Hw2]]]].
           destruct (String.eqb_spec v u) as [->|_]; [| exact (IH _ Hin Hu)].
           exfalso. apply Hw2. left. congruence.
  - exact (IH seen Hin Hu).
Qed.

Lemma dedupe_complete seen posts q u :
  In q posts -> Post.url q = Some u -> u <> "" -> ~ In u seen ->
  exists p, In p (dedupe seen posts) /\ Post.url p = Some u.
Proof.
  revert seen. induction posts as [|r posts IH]; intros seen; simpl; [tauto |].
  intros Hq Hu Hne Hseen.
  destruct (Post.url r) as [v|] eqn:Ev.
  - destruct (String.eqb_spec v "") as [->|Hv]; simpl.
    + destruct Hq as [ -> |Hq]; [congruence | exact (IH seen Hq Hu Hne Hseen)].
    + destruct (existsb (String.eqb v) seen) eqn:Es.
      * destruct Hq as [ -> |Hq]; [| exact (IH seen Hq Hu Hne Hseen)].
        apply existsb_eqb_In in Es. exfalso. apply Hseen. congruence.
      * destruct (String.eqb_spec v u) as [->|Hvu].
        -- exists r. split; [left; reflexivity | exact Ev].
        -- destruct Hq as [ -> |Hq]; [congruence |].
           destruct (IH (v :: seen) Hq Hu Hne) as [p [Hp1 Hp2]].
           ++ intros [E|H]; [congruence | contradiction].
           ++ exists p. split; [right; exact Hp1 | exact Hp2].
  - destruct Hq as [ -> |Hq]; [congruence | exact (IH seen Hq Hu Hne Hseen)].
Qed.

Lemma to_post_text (post : RawPost.t) :
  (List.length (Post.text (to_post post)) <= 200)%nat.
Proof. exact (slice0_length 200 _). Qed.

Lemma all_posts_In scans p :
  In p (all_posts scans) <->
  exists scan post, In scan scans /\ In post (posts_of scan) /\ p = to_post post.
Proof.
  unfold all_posts. rewrite in_flat_map. split.
  - intros [scan [Hs Hp]]. apply in_map_iff in Hp. destruct Hp as [post [<- Hp]].
    exists scan, post. auto.
  - intros [scan [post [Hs [Hp ->]]]]. exists scan. split; [exact Hs |].
    apply in_map. exact Hp.
Qed.

Lemma ranked_sorted scans : StronglySorted likes_ge (ranked_posts scans).
Proof.
  unfold ranked_posts.
  apply (StronglySorted_weaken (key_le (fun p => - Zor (Post.likes p) 0))).
  - intros a b _ _. unfold key_le, likes_ge. lia.
  - apply sort_sorted. intros a b _ _. unfold by_likes_desc.
    symmetry. apply Z.compare_opp.
Qed.

(** [getHighEngagement] returns at most [limit] posts (5 by default),
    by likes, largest first, no two with the same URL.  Each comes from
    an item of some scan, has a non-empty URL and a text of at most 200
    code units, and is the first post of the scans with that URL; a URL
    of the scans is missing from the result only when the limit cut it. *)
Theorem getHighEngagement_spec (scans : list PostedScan) (limit : option nat) :
  let n := limit_of_posts limit in
  let out := getHighEngagement scans limit in
  (List.length out <= n)%nat
  /\ StronglySorted likes_ge out
  /\ NoDup (map Post.url out)
  /\ (forall p, In p out ->
        (exists scan post, In scan scans /\ In post (posts_of scan) /\ p = to_post post)
        /\ (List.length (Post.text p) <= 200)%nat
        /\ exists u, Post.url p = Some u /\ u <> ""
                     /\ List.find (has_url u) (all_posts scans) = Some p)
  /\ (forall q u, In q (all_posts scans) -> Post.url q = Some u -> u <> "" ->
        (exists p, In p out /\ Post.url p = Some u)
        \/ (n < List.length (dedupe [] (all_posts scans)))%nat).
Proof.
  cbv zeta. unfold getHighEngagement. cbv zeta. fold (ranked_posts scans).
  fold (limit_of_posts limit). set (n := limit_of_posts limit).
  split; [apply slice0_length |
          split; [apply slice0_sorted, ranked_sorted | split; [| split]]].
  - unfold JS.slice0. rewrite <- firstn_map. apply NoDup_firstn.
    unfold ranked_posts.
    apply (Permutation_NoDup (l := map Post.url (dedupe [] (all_posts scans)))).
    + apply Permutation_map, Permutation_sym, sort_perm.
    + apply dedupe_urls.
  - intros p Hp. apply In_slice0 in Hp. unfold ranked_posts in Hp.
    apply (proj1 (sort_In _ _ _)) in Hp.
    destruct (dedupe_In _ _ _ Hp) as [Hall [u [Hu [Hne _]]]].
    pose proof (proj1 (all_posts_In _ _) Hall) as Hsrc.
    split; [exact Hsrc | split].
    + destruct Hsrc as [scan [post [_ [_ ->]]]]. apply to_post_text.
    + exists u. split; [exact Hu | split; [exact Hne |]].
      exact (dedupe_first _ _ _ _ Hp Hu).
  - intros q u Hq Hu Hne.
    destruct (dedupe_complete [] _ q u Hq Hu Hne) as [p [Hp Hpu]]; [intros [] |].
    destruct (Nat.lt_ge_cases n (List.length (dedupe [] (all_posts scans))))
      as [Hlt|Hge]; [right; exact Hlt | left].
    exists p. split; [| exact Hpu].
    rewrite slice0_all by (unfold ranked_posts; rewrite sort_length; exact Hge).
    unfold ranked_posts. apply sort_In, Hp.
Qed.

(** ** Escaping: escapeHtml *)

Lemma append_assoc (a b c : string) : ((a ++ b) ++ c = a ++ (b ++ c))%string.
Proof. induction a as [|d a IH]; simpl; [reflexivity | rewrite IH; reflexivity]. Qed.

Lemma replace_all_app c by_ a b :
  replace_all c by_ (a ++ b)%string
  = (replace_all c by_ a ++ replace_all c by_ b)%string.
Proof.
  induction a as [|d a IH]; simpl; [reflexivity |].
  destruct (Ascii.eqb d c); rewrite IH; [| reflexivity].
  symmetry. apply append_assoc.
Qed.

Lemma escapeHtml_app a b :
  escapeHtml (a ++ b)%string = (escapeHtml a ++ escapeHtml b)%string.
Proof. unfold escapeHtml. rewrite !replace_all_app. reflexivity. Qed.

Lemma escapeHtml_char c : escapeHtml (String c "") = escape_char c.
Proof.
  unfold escape_char.
  destruct (Ascii.eqb_spec c "&") as [->|H1]; [reflexivity |].
  destruct (Ascii.eqb_spec c "<") as [->|H2]; [reflexivity |].
  destruct (Ascii.eqb_spec c ">") as [->|H3]; [reflexivity |].
  destruct (Ascii.eqb_spec c double_quote) as [->|H4]; [reflexivity |].
  unfold escapeHtml. simpl.
  apply Ascii.eqb_neq in H1, H2, H3, H4.
  rewrite H1. simpl. rewrite H2. simpl. rewrite H3. simpl. rewrite H4. reflexivity.
Qed.

Lemma escapeHtml_cons c s :
  escapeHtml (String c s) = (escape_char c ++ escapeHtml s)%string.
Proof.
  change (String c s) with (String c "" ++ s)%string.
  rewrite escapeHtml_app, escapeHtml_char. reflexivity.
Qed.

Lemma occurs_app c a b : occurs c (a ++ b)%string = occurs c a || occurs c b.
Proof.
  induction a as [|d a IH]; simpl; [reflexivity |].
  rewrite IH. apply orb_assoc.
Qed.

Lemma escape_char_free c d : markup d = true -> occurs d (escape_char c) = false.
Proof.
  unfold markup, escape_char. intros Hd.
  destruct (Ascii.eqb_spec c "&"); [| destruct (Ascii.eqb_spec c "<");
    [| destruct (Ascii.eqb_spec c ">"); [| destruct (Ascii.eqb_spec c double_quote)]]].
  1-4: apply orb_true_iff in Hd; destruct Hd as [Hd|Hd];
       [apply orb_true_iff in Hd; destruct Hd as [Hd|Hd] |];
       apply Ascii.eqb_eq in Hd; subst d; reflexivity.
  simpl. rewrite orb_false_r. apply Ascii.eqb_neq.
  apply orb_true_iff in Hd; destruct Hd as [Hd|Hd];
    [apply orb_true_iff in Hd; destruct Hd as [Hd|Hd] |];
    apply Ascii.eqb_eq in Hd; subst d; assumption.
Qed.

Lemma escapeHtml_free s d : markup d = true -> occurs d (escapeHtml s) = false.
Proof.
  intros Hd. induction s as [|c s IH]; [reflexivity |].
  rewrite escapeHtml_cons, occurs_app, IH, (escape_char_free c d Hd). reflexivity.
Qed.

Lemma escape_char_head c :
  exists r, escape_char c = String (if markup c then "&"%char else c) r
            /\ (c = "&"%char -> r = "amp;").
Proof.
  unfold escape_char, markup.
  destruct (Ascii.eqb_spec c "&") as [->|H1]; [eexists; split; reflexivity |].
  destruct (Ascii.eqb_spec c "<") as [->|H2];
    [eexists; split; [reflexivity | congruence] |].
  destruct (Ascii.eqb_spec c ">") as [->|H3];
    [eexists; split; [reflexivity | congruence] |].
  destruct (Ascii.eqb_spec c double_quote) as [->|H4];
    [eexists; split; [reflexivity | discriminate] |].
  eexists; split; [reflexivity | congruence].
Qed.

Lemma escapeHtml_injective a b : escapeHtml a = escapeHtml b -> a = b.
Proof.
  revert b. induction a as [|c a IH]; intros [|d b].
  - reflexivity.
  - rewrite escapeHtml_cons. destruct (escape_char_head d) as [r [-> _]]. discriminate.
  - rewrite escapeHtml_cons. destruct (escape_char_head c) as [r [-> _]]. discriminate.
  - rewrite !escapeHtml_cons. unfold escape_char.
    destruct (Ascii.eqb_spec c "&") as [->|C1];
      [| destruct (Ascii.eqb_spec c "<") as [->|C2];
         [| destruct (Ascii.eqb_spec c ">") as [->|C3];
            [| destruct (Ascii.eqb_spec c double_quote) as [->|C4]]]];
    (destruct (Ascii.eqb_spec d "&") as [->|D1];
      [| destruct (Ascii.eqb_spec d "<") as [->|D2];
         [| destruct (Ascii.eqb_spec d ">") as [->|D3];
            [| destruct (Ascii.eqb_spec d double_quote) as [->|D4]]]]);
    simpl; intros H; try discriminate H;
    try (injection H as H; f_equal; apply IH; assumption);
    try (injection H as E H; congruence).
    injection H as E H. subst d. f_equal. apply IH, H.
Qed.

Lemma escapeHtml_plain s :
  occurs "&" s = false -> occurs "<" s = false -> occurs ">" s = false ->
  occurs double_quote s = false -> escapeHtml s = s.
Proof.
  induction s as [|c s IH]; [reflexivity |]. simpl.
  intros H1 H2 H3 H4. apply orb_false_iff in H1, H2, H3, H4.
  rewrite escapeHtml_cons, (IH (proj2 H1) (proj2 H2) (proj2 H3) (proj2 H4)).
  unfold escape_char.
  rewrite (proj1 H1), (proj1 H2), (proj1 H3), (proj1 H4). reflexivity.
Qed.

(** An escaped text holds no [<], no [>] and no double quote, whatever
    the text was: it cannot open or close a tag or an attribute value. *)
Theorem escapeHtml_no_markup (str : string) :
  occurs "<" (escapeHtml str) = false
  /\ occurs ">" (escapeHtml str) = false
  /\ occurs double_quote (escapeHtml str) = false.
Proof. repeat split; apply escapeHtml_free; reflexivity. Qed.

(** Escaping works character by character, in one pass: the four
    replacements in a row do not escape the [&] of an entity they wrote.
    It loses nothing (two texts with the same escaped form are the same
    text) and leaves a text without any of the four characters as it is. *)
Theorem escapeHtml_faithful :
  (forall c s, escapeHtml (String c s) = (escape_char c ++ escapeHtml s)%string)
  /\ (forall a b, escapeHtml (a ++ b)%string = (escapeHtml a ++ escapeHtml b)%string)
  /\ (forall a b, escapeHtml a = escapeHtml b -> a = b)
  /\ (forall s, occurs "&" s = false -> occurs "<" s = false ->
                occurs ">" s = false -> occurs double_quote s = false ->
                escapeHtml s = s).
Proof.
  split; [exact escapeHtml_cons | split; [exact escapeHtml_app | split]].
  - exact escapeHtml_injective.
  - exact escapeHtml_plain.
Qed.

(** ** The routes of the API *)








(** When the window holds no scan, the brief of [/api/brief] is the
    brief of an empty window whatever the history holds: regime BEARISH
    on a ratio of 0, trend UNKNOWN, fear NORMAL, no tickers, commodities
    or momentum, and the narrative of a bearish market. *)
Theorem apiBrief_no_data (query : option string) (fs : filesystem)
    (DATA_DIRS : string * string) (now : Z) (allScans : list Snapshot) :
  loadScans_on fs DATA_DIRS now (hours_of query) = Normal [] ->
  loadAllScans_on fs DATA_DIRS = Normal allScans ->
  apiBrief query fs DATA_DIRS now =
    Normal (empty_brief (hours_of query) (List.length allScans)).
Proof.
  intros H1 H2. unfold apiBrief. cbv zeta. rewrite H1, H2.
  unfold brief_of. cbv zeta. rewrite getMomentum_no_recent. reflexivity.
Qed.

Lemma apiBrief_no_data_witness :
  apiBrief None old_data data_dirs 1700000000000 = Normal (empty_brief 24%float 2)
  /\ apiBrief (Some "12") no_data data_dirs 0 = Normal (empty_brief 12%float 0).
Proof.
  split.
  - apply (apiBrief_no_data None old_data data_dirs 1700000000000
             [scan_at (Some 1000); scan_at (Some 2000)]);
      vm_compute; reflexivity.
  - apply (apiBrief_no_data (Some "12") no_data data_dirs 0 []);
      vm_compute; reflexivity.
Defined.





(** ** The start-up log *)



(** ** The opening of the narrative, by tier *)

(** A threshold a number misses is missed at every higher threshold. *)
Lemma geb_threshold (x c1 c2 : number) :
  PrimFloat.leb c1 c2 = true -> geb x c1 = false -> geb x c2 = false.
Proof.
  unfold geb. intros Hc Hx. destruct (PrimFloat.leb c2 x) eqn:E; [| reflexivity].
  rewrite leb_spec in *. rewrite (SFleb_trans _ _ _ Hc E) in Hx. discriminate.
Qed.

(** The opening follows the label, not the order of the tiers: a ratio
    from 1.5 up to 3 is LEANING BULL, a tier above NEUTRAL, and its
    narrative opens with the sentence of the bearish tiers; with a
    NORMAL fear level and no momentum that sentence is the whole
    narrative. *)
Theorem leaning_bull_opening (sentiment : SentimentSummary) (r : value) :
  geb (parseFloat r) 1.5%float = true ->
  geb (parseFloat r) 3%float = false ->
  Regime.label (getRegimeLabel r) = "LEANING BULL"
  /\ opening sentiment (getRegimeLabel r) = "Caution dominates. Bears have the floor."
  /\ forall fear tickers,
       Fear.level fear = "NORMAL" ->
       generateNarrative sentiment (getRegimeLabel r) fear tickers []
       = "Caution dominates. Bears have the floor.".
Proof.
  intros H15 H3.
  assert (E : getRegimeLabel r =
              {| Regime.label := "LEANING BULL"; Regime.emoji := Regime.emoji (getRegimeLabel r);
                 Regime.color := Regime.color (getRegimeLabel r) |}).
  { unfold getRegimeLabel. cbv zeta.
    rewrite (geb_threshold _ 3%float 5%float eq_refl H3), H3, H15. reflexivity. }
  split; [rewrite E; reflexivity |]. split; [rewrite E; reflexivity |].
  intros fear tickers Hf. unfold generateNarrative, narrative_parts, fear_parts.
  rewrite Hf, E. reflexivity.
Qed.

Lemma leaning_bull_opening_witness :
  Regime.label (getRegimeLabel (VStr "2.00")) = "LEANING BULL"
  /\ opening (analyzeSentiment [busy_scan]) (getRegimeLabel (VStr "2.00"))
     = "Caution dominates. Bears have the floor."
  /\ forall fear tickers,
       Fear.level fear = "NORMAL" ->
       generateNarrative (analyzeSentiment [busy_scan]) (getRegimeLabel (VStr "2.00"))
         fear tickers []
       = "Caution dominates. Bears have the floor.".
Proof.
  apply (leaning_bull_opening (analyzeSentiment [busy_scan]) (VStr "2.00"));
    vm_compute; reflexivity.
Defined.
